(** * Interactive viewers of the tomography tutorial (tomography/plotting.py)

    A shallow embedding of the two presentation classes of [plotting.py]:
    [DataViewer] (a slider over a stack of input images) and
    [Tomographyplot] (the four-panel explorer of a reflectivity volume).

    The handlers of the source mutate [self] and may raise in the middle of
    doing so, so they are embedded in a state-and-exception monad in which
    the state reached at the moment of the raise is kept.  Arrays are a
    shape with an element function, Python integers are [Z], finite floats
    are rationals, and the parts of matplotlib's figure state that the
    handlers read or write are record fields. *)

From Stdlib Require Import ZArith QArith List String Ascii Bool Lia.
From Stdlib Require Import DecimalString DecimalN.
Import ListNotations.
Local Open Scope string_scope.
Local Open Scope Z_scope.

Set Implicit Arguments.

(* ===================================================================== *)
(** ** Python values, exceptions and the handler monad *)
(* ===================================================================== *)

Module Py.

(** The exceptions the modelled code can raise. *)
Inductive exn : Type :=
| RuntimeError (msg : string)
| IndexError
| ValueError
| TypeError
| AttributeError.

Inductive outcome (A : Type) : Type :=
| Returned (a : A)
| Raised (e : exn).
Arguments Returned {A} a.
Arguments Raised {A} e.

(** A method body over a mutable object of type [S]: it yields the
    object as it stands when the body returns or raises. *)
Definition M (S A : Type) : Type := S -> S * outcome A.

Definition ret {S A} (a : A) : M S A := fun s => (s, Returned a).

Definition bind {S A B} (c : M S A) (k : A -> M S B) : M S B :=
  fun s =>
    match c s with
    | (s', Returned a) => k a s'
    | (s', Raised e) => (s', Raised e)
    end.

Definition raise {S A} (e : exn) : M S A := fun s => (s, Raised e).
Definition get {S} : M S S := fun s => (s, Returned s).
Definition modify {S} (f : S -> S) : M S unit := fun s => (f s, Returned tt).

(** An expression that may raise, evaluated inside a method. *)
Definition lift {S A} (o : outcome A) : M S A := fun s => (s, o).

Definition when {S} (b : bool) (c : M S unit) : M S unit :=
  if b then c else ret tt.

(** The object after the body has run, whether it returned or raised. *)
Definition exec {S A} (c : M S A) (s : S) : S := fst (c s).
Definition result {S A} (c : M S A) (s : S) : outcome A := snd (c s).

Definition completes {A} (o : outcome A) : bool :=
  match o with Returned _ => true | Raised _ => false end.

(** *** Integers and floats *)

(** [int(x)] on a finite float: the float is the rational [x], and the
    conversion drops the fractional part (rounds toward zero). *)
Definition int_of_float (x : Q) : Z := Z.quot (Qnum x) (Zpos (Qden x)).

(** [int(v)] where [v] may be [None]. *)
Definition int (v : option Q) : outcome Z :=
  match v with
  | Some x => Returned (int_of_float x)
  | None => Raised TypeError
  end.

(** [range(lo, hi)] as a list. *)
Definition range (lo hi : Z) : list Z :=
  map (fun i => lo + Z.of_nat i) (seq 0 (Z.to_nat (hi - lo))).

(** *** Sequence indexing *)

(** How Python and numpy read an integer index [i] on an axis of length
    [n]: non-negative indices count from the front, negative ones from
    the back, anything else is an [IndexError]. *)
Definition index (n : nat) (i : Z) : outcome nat :=
  if (0 <=? i) && (i <? Z.of_nat n) then Returned (Z.to_nat i)
  else if (- Z.of_nat n <=? i) && (i <? 0) then Returned (Z.to_nat (Z.of_nat n + i))
  else Raised IndexError.

(** [l[i]] on a list. *)
Definition getitem {A} (l : list A) (i : Z) : outcome A :=
  match index (List.length l) i with
  | Returned k =>
      match nth_error l k with
      | Some a => Returned a
      | None => Raised IndexError
      end
  | Raised e => Raised e
  end.

(** *** Strings *)

(** The decimal digits of a natural number. *)
Definition digits (n : N) : string := NilEmpty.string_of_uint (N.to_uint n).

(** [str(z)], which is also what ['{}'.format(z)] inserts. *)
Definition str (z : Z) : string :=
  if z <? 0 then "-" ++ digits (Z.abs_N z) else digits (Z.abs_N z).

Fixpoint zeros (k : nat) : string :=
  match k with
  | O => ""
  | S k' => String "0" (zeros k')
  end.

(** ['{:03}'.format(z)]: sign first, then zeros up to a total width of
    three, then the digits. *)
Definition format_03 (z : Z) : string :=
  let d := digits (Z.abs_N z) in
  if z <? 0 then "-" ++ zeros (2 - String.length d)%nat ++ d
  else zeros (3 - String.length d)%nat ++ d.

Definition is_digit (c : ascii) : bool :=
  (48 <=? nat_of_ascii c)%nat && (nat_of_ascii c <=? 57)%nat.

Definition sign_or_digit (c : ascii) : bool :=
  is_digit c || Ascii.eqb c "-".

(** [k] leading zeros in front of a decimal numeral. *)
Fixpoint pad (k : nat) (u : Decimal.uint) : Decimal.uint :=
  match k with
  | O => u
  | S k' => Decimal.D0 (pad k' u)
  end.

Fixpoint all_chars (p : ascii -> bool) (s : string) : bool :=
  match s with
  | EmptyString => true
  | String c r => p c && all_chars p r
  end.

(** [p.rfind('/')]: position of the last slash, [-1] when there is none. *)
Fixpoint rfind_slash_from (pos : Z) (p : string) : Z :=
  match p with
  | EmptyString => -1
  | String c r =>
      let later := rfind_slash_from (pos + 1) r in
      if 0 <=? later then later
      else if Ascii.eqb c "/" then pos else -1
  end.
Definition rfind_slash (p : string) : Z := rfind_slash_from 0 p.

(** [os.path.basename(p)] (posixpath): [i = p.rfind('/') + 1; p[i:]]. *)
Definition basename (p : string) : string :=
  let i := Z.to_nat (rfind_slash p + 1) in
  substring i (String.length p - i)%nat p.

End Py.

Declare Scope py_scope.
Delimit Scope py_scope with py.
Notation "x <- c ;; k" := (Py.bind c (fun x => k))
  (at level 61, c at next level, right associativity) : py_scope.
Notation "c ;; k" := (Py.bind c (fun _ => k))
  (at level 61, right associativity) : py_scope.

Local Open Scope py_scope.

(* ===================================================================== *)
(** ** numpy arrays *)
(* ===================================================================== *)

Module Np.
Import Py.

Section Arrays.
Variable V : Type.

(** A three-dimensional array: its shape and the element at each
    position inside the shape. *)
Record ndarray3 : Type := {
  shape3 : nat * nat * nat;
  at3 : nat -> nat -> nat -> V
}.

Record ndarray2 : Type := {
  shape2 : nat * nat;
  at2 : nat -> nat -> V
}.

Definition dim0 (a : ndarray3) : nat := fst (fst (shape3 a)).
Definition dim1 (a : ndarray3) : nat := snd (fst (shape3 a)).
Definition dim2 (a : ndarray3) : nat := snd (shape3 a).

(** [a.shape == b.shape] on two shape tuples. *)
Definition shape_eqb (s t : nat * nat * nat) : bool :=
  let '(s0, s1, s2) := s in
  let '(t0, t1, t2) := t in
  Nat.eqb s0 t0 && Nat.eqb s1 t1 && Nat.eqb s2 t2.

(** [a[i, j, :]] *)
Definition getitem_ij (a : ndarray3) (i j : Z) : outcome (list V) :=
  match index (dim0 a) i with
  | Raised e => Raised e
  | Returned i' =>
      match index (dim1 a) j with
      | Raised e => Raised e
      | Returned j' => Returned (map (at3 a i' j') (seq 0 (dim2 a)))
      end
  end.

(** [a[i, :, :]] *)
Definition getitem_i (a : ndarray3) (i : Z) : outcome ndarray2 :=
  match index (dim0 a) i with
  | Raised e => Raised e
  | Returned i' =>
      Returned {| shape2 := (dim1 a, dim2 a); at2 := fun j k => at3 a i' j k |}
  end.

(** [a[:, j, :]] *)
Definition getitem_j (a : ndarray3) (j : Z) : outcome ndarray2 :=
  match index (dim1 a) j with
  | Raised e => Raised e
  | Returned j' =>
      Returned {| shape2 := (dim0 a, dim2 a); at2 := fun i k => at3 a i j' k |}
  end.

(** [a[:, :, k]] *)
Definition getitem_k (a : ndarray3) (k : Z) : outcome ndarray2 :=
  match index (dim2 a) k with
  | Raised e => Raised e
  | Returned k' =>
      Returned {| shape2 := (dim0 a, dim1 a); at2 := fun i j => at3 a i j k' |}
  end.

(** [np.flipud] on a one-dimensional array. *)
Definition flipud (v : list V) : list V := rev v.

(** [np.rot90(m, 1)]: a quarter turn counter-clockwise; an [r] by [c]
    array becomes [c] by [r] and its last column becomes the first row. *)
Definition rot90 (m : ndarray2) : ndarray2 :=
  let '(r, c) := shape2 m in
  {| shape2 := (c, r); at2 := fun i j => at2 m j (c - 1 - i)%nat |}.

End Arrays.
End Np.

(* ===================================================================== *)
(** ** The widget and figure state the handlers touch *)
(* ===================================================================== *)

Module IntSlider.
Record t : Type := {
  min : Z;
  max : Z;
  step : Z;
  value : Z
}.

Definition set_value (v : Z) (w : t) : t :=
  {| min := min w; max := max w; step := step w; value := v |}.
End IntSlider.

Module Mpl.
Import Py Np.

Section Figure.
Variable V : Type.

(** What an image layer shows.  The numeric transforms that the input
    viewer applies before display work on floats and are kept
    symbolic: the layer records which transform of which array it is. *)
Inductive picture : Type :=
| Raw (m : ndarray2 V)
| Magnitude (m : ndarray2 V)
| LogAmplitude (m : ndarray2 V).

Definition picture_array (p : picture) : ndarray2 V :=
  match p with
  | Raw m => m
  | Magnitude m => m
  | LogAmplitude m => m
  end.

(** A colour limit handed to [imshow]: the [q]-th percentile of a
    picture.  Its numeric value is a float and is kept symbolic. *)
Inductive bound : Type :=
| Percentile (q : Z) (p : picture).

(** [np.percentile(a, (q1, q2))] on a two-dimensional array: numpy raises
    [IndexError] when the array has no element at all. *)
Definition percentile (p : picture) (q1 q2 : Z) : outcome (bound * bound) :=
  let '(r, c) := shape2 (picture_array p) in
  if Nat.eqb (r * c) 0 then Raised IndexError
  else Returned (Percentile q1 p, Percentile q2 p).

Record AxesImage : Type := {
  image_data : picture;
  (** keyword arguments of [imshow]; [None] is matplotlib's default *)
  image_origin : option string;
  image_cmap : option string;
  image_aspect : option string;
  image_vmin : option bound;
  image_vmax : option bound;
  (** the y-label of the colour bar attached to this layer, if any *)
  image_colorbar : option string
}.

Record Line2D : Type := {
  line_xdata : list V;
  line_ydata : list Z;
  line_label : string
}.

Record Axes : Type := {
  lines : list Line2D;
  images : list AxesImage;
  title : string;
  xlabel : string;
  ylabel : string;
  xlim : Q * Q;
  ylim : Q * Q;
  yticks : option (list Q);
  yticklabels : option (list Z);
  legend : option (list string)
}.

(** The view limits [set_xlim(lo, hi)] and [set_ylim(lo, hi)] end up
    with: matplotlib keeps distinct limits and widens identical ones
    (by 0.05 around zero, by five per cent of their size otherwise), since
    an interval without extent cannot be drawn. *)
Definition nonsingular (lo hi : Z) : Q * Q :=
  if lo =? hi then
    if lo =? 0 then (- (1 # 20), 1 # 20)%Q
    else (inject_Z lo - (1 # 20) * inject_Z (Z.abs lo),
          inject_Z hi + (1 # 20) * inject_Z (Z.abs hi))%Q
  else (inject_Z lo, inject_Z hi).

(** A panel as [add_subplot] makes it, which is also what [cla()]
    leaves behind. *)
Definition new_axes : Axes :=
  {| lines := []; images := []; title := ""; xlabel := ""; ylabel := "";
     xlim := (inject_Z 0, inject_Z 1); ylim := (inject_Z 0, inject_Z 1);
     yticks := None; yticklabels := None; legend := None |}.

Definition cla (ax : Axes) : Axes := new_axes.

Definition set_lines (l : list Line2D) (ax : Axes) : Axes :=
  {| lines := l; images := images ax; title := title ax;
     xlabel := xlabel ax; ylabel := ylabel ax; xlim := xlim ax;
     ylim := ylim ax; yticks := yticks ax;
     yticklabels := yticklabels ax; legend := legend ax |}.

Definition set_images (l : list AxesImage) (ax : Axes) : Axes :=
  {| lines := lines ax; images := l; title := title ax;
     xlabel := xlabel ax; ylabel := ylabel ax; xlim := xlim ax;
     ylim := ylim ax; yticks := yticks ax;
     yticklabels := yticklabels ax; legend := legend ax |}.

Definition set_title (s : string) (ax : Axes) : Axes :=
  {| lines := lines ax; images := images ax; title := s;
     xlabel := xlabel ax; ylabel := ylabel ax; xlim := xlim ax;
     ylim := ylim ax; yticks := yticks ax;
     yticklabels := yticklabels ax; legend := legend ax |}.

Definition set_xlabel (s : string) (ax : Axes) : Axes :=
  {| lines := lines ax; images := images ax; title := title ax;
     xlabel := s; ylabel := ylabel ax; xlim := xlim ax;
     ylim := ylim ax; yticks := yticks ax;
     yticklabels := yticklabels ax; legend := legend ax |}.

Definition set_ylabel (s : string) (ax : Axes) : Axes :=
  {| lines := lines ax; images := images ax; title := title ax;
     xlabel := xlabel ax; ylabel := s; xlim := xlim ax;
     ylim := ylim ax; yticks := yticks ax;
     yticklabels := yticklabels ax; legend := legend ax |}.

(** [ax.set_xlim(lo, hi)] and [ax.set_ylim(lo, hi)] *)
Definition set_xlim (lo hi : Z) (ax : Axes) : Axes :=
  {| lines := lines ax; images := images ax; title := title ax;
     xlabel := xlabel ax; ylabel := ylabel ax; xlim := nonsingular lo hi;
     ylim := ylim ax; yticks := yticks ax;
     yticklabels := yticklabels ax; legend := legend ax |}.

Definition set_ylim (lo hi : Z) (ax : Axes) : Axes :=
  {| lines := lines ax; images := images ax; title := title ax;
     xlabel := xlabel ax; ylabel := ylabel ax; xlim := xlim ax;
     ylim := nonsingular lo hi; yticks := yticks ax;
     yticklabels := yticklabels ax; legend := legend ax |}.

(** [plt.setp(ax, yticklabels=lab, yticks=pos)] *)
Definition set_yticks (lab : list Z) (pos : list Q) (ax : Axes) : Axes :=
  {| lines := lines ax; images := images ax; title := title ax;
     xlabel := xlabel ax; ylabel := ylabel ax; xlim := xlim ax;
     ylim := ylim ax; yticks := Some pos;
     yticklabels := Some lab; legend := legend ax |}.

Definition set_legend (l : option (list string)) (ax : Axes) : Axes :=
  {| lines := lines ax; images := images ax; title := title ax;
     xlabel := xlabel ax; ylabel := ylabel ax; xlim := xlim ax;
     ylim := ylim ax; yticks := yticks ax;
     yticklabels := yticklabels ax; legend := l |}.

(** [ax.imshow(...)]: one more image layer on the panel. *)
Definition imshow (im : AxesImage) (ax : Axes) : Axes :=
  set_images (images ax ++ [im]) ax.

(** [ax.plot(x, y, label=...)]: one more line; matplotlib refuses
    [x] and [y] of different lengths with a [ValueError]. *)
Definition plot (x : list V) (y : list Z) (label : string) (ax : Axes)
  : outcome Axes :=
  if Nat.eqb (List.length x) (List.length y)
  then Returned (set_lines
                   (lines ax ++ [{| line_xdata := x; line_ydata := y;
                                    line_label := label |}]) ax)
  else Raised ValueError.

(** [ax.legend(...)]: the legend lists the labels of the lines drawn. *)
Definition make_legend (ax : Axes) : Axes :=
  set_legend (Some (map line_label (lines ax))) ax.

End Figure.

Arguments new_axes {V}.
End Mpl.

(* ===================================================================== *)
(** ** class DataViewer *)
(* ===================================================================== *)

Module DataViewer.
Import Py Np Mpl.

Section Viewer.
Variable V : Type.

Record t : Type := {
  slc_list : list string;
  phase_list : list string;
  kz_list : list string;
  slc_stack : ndarray3 V;
  phase_stack : ndarray3 V;
  kz_stack : ndarray3 V;
  slider : IntSlider.t;
  ax1 : Axes V;
  ax2 : Axes V;
  ax3 : Axes V
}.

Definition with_ax1 (f : Axes V -> Axes V) (self : t) : t :=
  {| slc_list := slc_list self; phase_list := phase_list self;
     kz_list := kz_list self; slc_stack := slc_stack self;
     phase_stack := phase_stack self; kz_stack := kz_stack self;
     slider := slider self;
     ax1 := f (ax1 self); ax2 := ax2 self; ax3 := ax3 self |}.

Definition with_ax2 (f : Axes V -> Axes V) (self : t) : t :=
  {| slc_list := slc_list self; phase_list := phase_list self;
     kz_list := kz_list self; slc_stack := slc_stack self;
     phase_stack := phase_stack self; kz_stack := kz_stack self;
     slider := slider self;
     ax1 := ax1 self; ax2 := f (ax2 self); ax3 := ax3 self |}.

Definition with_ax3 (f : Axes V -> Axes V) (self : t) : t :=
  {| slc_list := slc_list self; phase_list := phase_list self;
     kz_list := kz_list self; slc_stack := slc_stack self;
     phase_stack := phase_stack self; kz_stack := kz_stack self;
     slider := slider self;
     ax1 := ax1 self; ax2 := ax2 self; ax3 := f (ax3 self) |}.

(** The slider of lines 43-46:
    [IntSlider(min=1, max=len(self.slc_list) - 1, step=1, ...)].
    The widget starts at its minimum (the default value 0 lies below
    it). *)
Definition make_slider (slc_list : list string) : IntSlider.t :=
  {| IntSlider.min := 1;
     IntSlider.max := Z.of_nat (List.length slc_list) - 1;
     IntSlider.step := 1;
     IntSlider.value := 1 |}.

(** The values the slider can deliver. *)
Definition in_slider_range (w : IntSlider.t) (h : Z) : Prop :=
  IntSlider.min w <= h <= IntSlider.max w.

(** [onslide(self, h)], lines 76-88. *)
Definition onslide (h : Z) : M t unit :=
  self <- get ;;
  slc_path <- lift (getitem (slc_list self) h) ;;
  let slc_name := basename slc_path in
  phase_path <- lift (getitem (phase_list self) (h - 1)) ;;
  let phase_name := basename phase_path in
  kz_path <- lift (getitem (kz_list self) (h - 1)) ;;
  let kz_name := basename kz_path in
  modify (with_ax1 (set_title ("SLC intensity: " ++ slc_name))) ;;
  modify (with_ax2 (set_title ("phase: " ++ phase_name))) ;;
  modify (with_ax3 (set_title ("wavenumber: " ++ kz_name))) ;;
  amp <- lift (getitem_k (slc_stack self) h) ;;
  let amp_log := LogAmplitude amp in
  pp <- lift (percentile amp_log 2 98) ;;
  modify (with_ax1 (imshow {| image_data := amp_log;
                              image_origin := None;
                              image_cmap := Some "gray";
                              image_aspect := None;
                              image_vmin := Some (fst pp);
                              image_vmax := Some (snd pp);
                              image_colorbar := None |})) ;;
  phase <- lift (getitem_k (phase_stack self) h) ;;
  modify (with_ax2 (imshow {| image_data := Magnitude phase;
                              image_origin := None;
                              image_cmap := None;
                              image_aspect := None;
                              image_vmin := None;
                              image_vmax := None;
                              image_colorbar := None |})) ;;
  kz <- lift (getitem_k (kz_stack self) h) ;;
  modify (with_ax3 (imshow {| image_data := Magnitude kz;
                              image_origin := None;
                              image_cmap := None;
                              image_aspect := None;
                              image_vmin := None;
                              image_vmax := None;
                              image_colorbar := None |})).

(** [__init__], lines 25-61.  [interactive_output] runs the handler
    once on the slider's value inside an output widget, which keeps
    whatever the handler raises. *)
Definition __init__ (slc_list phase_list kz_list : list string)
    (slc_stack phase_stack kz_stack : ndarray3 V) : t :=
  let w := make_slider slc_list in
  let self :=
    {| slc_list := slc_list; phase_list := phase_list;
       kz_list := kz_list; slc_stack := slc_stack;
       phase_stack := phase_stack; kz_stack := kz_stack;
       slider := w;
       ax1 := new_axes; ax2 := new_axes; ax3 := new_axes |} in
  exec (onslide (IntSlider.value w)) self.

(** The three labels the handler has put on the panels. *)
Definition titles (self : t) : string * string * string :=
  (title (ax1 self), title (ax2 self), title (ax3 self)).

End Viewer.
End DataViewer.

(* ===================================================================== *)
(** ** class Tomographyplot *)
(* ===================================================================== *)

Module Tomographyplot.
Import Py Np Mpl.

(** The four subplots of the figure. *)
Inductive panel : Type := Ax1 | Ax2 | Ax3 | Ax4.

Definition panel_eqb (a b : panel) : bool :=
  match a, b with
  | Ax1, Ax1 | Ax2, Ax2 | Ax3, Ax3 | Ax4, Ax4 => true
  | _, _ => false
  end.

(** A [button_press_event]: the panel under the pointer, if any, and the
    pointer position in that panel's data coordinates. *)
Record MouseEvent : Type := {
  inaxes : option panel;
  xdata : option Q;
  ydata : option Q
}.

(** [event.inaxes == self.ax1] *)
Definition in_ax1 (event : MouseEvent) : bool :=
  match inaxes event with
  | Some p => panel_eqb p Ax1
  | None => false
  end.

(** What construction makes and shows, in order. *)
Inductive ui_effect : Type :=
| SliderCreated (w : IntSlider.t)
| CheckboxCreated (value : bool)
| ButtonCreated (description : string)
| FormDisplayed
| FigureCreated
| SubplotAdded (p : panel)
| CallbackConnected (name : string).

(** Lines 151-152. [//] is floor division and binds weaker than the unary
    minus; [/] is true division. *)
Definition ytick_lab (height : Z) : list Z :=
  [- height; (- height) / 2; 0; height / 2; height].

Definition ytick_pos (height : Z) : list Q :=
  [inject_Z 0;
   (inject_Z height / inject_Z 2)%Q;
   inject_Z height;
   (inject_Z height + inject_Z height / inject_Z 2)%Q;
   inject_Z (height * 2)].

Section Explorer.
Variable V : Type.

Record t : Type := {
  height : Z;
  capon_bf_abs : ndarray3 V;
  caponnorm : ndarray3 V;
  slider : IntSlider.t;
  (** [self.checkbox.value] *)
  checkbox : bool;
  ax1 : Axes V;
  ax2 : Axes V;
  ax3 : Axes V;
  ax4 : Axes V;
  (** the cross-hair: [ydata] of [self.lhor], [xdata] of [self.lver] *)
  lhor : Z;
  lver : Z
}.

Definition with_ax1 (f : Axes V -> Axes V) (self : t) : t :=
  {| height := height self; capon_bf_abs := capon_bf_abs self;
     caponnorm := caponnorm self; slider := slider self;
     checkbox := checkbox self;
     ax1 := f (ax1 self); ax2 := ax2 self; ax3 := ax3 self;
     ax4 := ax4 self; lhor := lhor self; lver := lver self |}.

Definition with_ax2 (f : Axes V -> Axes V) (self : t) : t :=
  {| height := height self; capon_bf_abs := capon_bf_abs self;
     caponnorm := caponnorm self; slider := slider self;
     checkbox := checkbox self;
     ax1 := ax1 self; ax2 := f (ax2 self); ax3 := ax3 self;
     ax4 := ax4 self; lhor := lhor self; lver := lver self |}.

Definition with_ax3 (f : Axes V -> Axes V) (self : t) : t :=
  {| height := height self; capon_bf_abs := capon_bf_abs self;
     caponnorm := caponnorm self; slider := slider self;
     checkbox := checkbox self;
     ax1 := ax1 self; ax2 := ax2 self; ax3 := f (ax3 self);
     ax4 := ax4 self; lhor := lhor self; lver := lver self |}.

Definition with_ax4 (f : Axes V -> Axes V) (self : t) : t :=
  {| height := height self; capon_bf_abs := capon_bf_abs self;
     caponnorm := caponnorm self; slider := slider self;
     checkbox := checkbox self;
     ax1 := ax1 self; ax2 := ax2 self; ax3 := ax3 self;
     ax4 := f (ax4 self); lhor := lhor self; lver := lver self |}.

Definition set_crosshair (hor ver : Z) (self : t) : t :=
  {| height := height self; capon_bf_abs := capon_bf_abs self;
     caponnorm := caponnorm self; slider := slider self;
     checkbox := checkbox self;
     ax1 := ax1 self; ax2 := ax2 self; ax3 := ax3 self;
     ax4 := ax4 self; lhor := hor; lver := ver |}.

Definition set_checkbox (b : bool) (self : t) : t :=
  {| height := height self; capon_bf_abs := capon_bf_abs self;
     caponnorm := caponnorm self; slider := slider self;
     checkbox := b;
     ax1 := ax1 self; ax2 := ax2 self; ax3 := ax3 self;
     ax4 := ax4 self; lhor := lhor self; lver := lver self |}.

Definition set_slider (w : IntSlider.t) (self : t) : t :=
  {| height := height self; capon_bf_abs := capon_bf_abs self;
     caponnorm := caponnorm self; slider := w;
     checkbox := checkbox self;
     ax1 := ax1 self; ax2 := ax2 self; ax3 := ax3 self;
     ax4 := ax4 self; lhor := lhor self; lver := lver self |}.

(** [reset_crosshair(self, range, azimuth)], lines 193-195. *)
Definition reset_crosshair (range azimuth : Z) : M t unit :=
  self <- get ;;
  modify (set_crosshair azimuth (lver self)) ;;
  self <- get ;;
  modify (set_crosshair (lhor self) range).

(** [init_vertical_plot(self)], lines 205-211. *)
Definition init_vertical_plot : M t unit :=
  self <- get ;;
  when (0 <? List.length (lines (ax2 self)))%nat
       (modify (with_ax2 (@cla V))) ;;
  modify (with_ax2 (set_ylabel "height [m]")) ;;
  modify (with_ax2 (set_xlabel "reflectivity")) ;;
  modify (with_ax2 (set_title "vertical point profiles")) ;;
  self <- get ;;
  modify (with_ax2 (set_ylim (- height self) (height self))).

(** [self.ax1.images[0].colorbar.remove(); del self.ax1.images[0]] *)
Definition drop_oldest_image (ax : Axes V) : outcome (Axes V) :=
  match images ax with
  | [] => Raised IndexError
  | im :: rest =>
      match image_colorbar im with
      | None => Raised AttributeError
      | Some _ => Returned (set_images rest ax)
      end
  end.

(** [cbar = self.fig.colorbar(p1, ax=self.ax1);
     cbar.ax.set_ylabel('reflectivity', ...)] where [p1] is the layer
    that [imshow] has just put last. *)
Definition attach_colorbar (lab : string) (ax : Axes V) : Axes V :=
  match rev (images ax) with
  | [] => ax
  | p1 :: older =>
      set_images
        (rev older ++ [{| image_data := image_data p1;
                          image_origin := image_origin p1;
                          image_cmap := image_cmap p1;
                          image_aspect := image_aspect p1;
                          image_vmin := image_vmin p1;
                          image_vmax := image_vmax p1;
                          image_colorbar := Some lab |}]) ax
  end.

(** [onslide(self, h)], lines 225-235. *)
Definition onslide (h : Z) : M t unit :=
  self <- get ;;
  slice <- lift (getitem_k (caponnorm self) (height self - h)) ;;
  modify (with_ax1 (imshow {| image_data := Raw slice;
                              image_origin := Some "upper";
                              image_cmap := Some "jet";
                              image_aspect := None;
                              image_vmin := None;
                              image_vmax := None;
                              image_colorbar := None |})) ;;
  modify (with_ax1 (set_xlabel "range")) ;;
  modify (with_ax1 (set_ylabel "azimuth")) ;;
  modify (with_ax1 (set_title
                      ("horizontal slice at height " ++ str h ++ " m"))) ;;
  self <- get ;;
  when (1 <? List.length (images (ax1 self)))%nat
       (ax <- lift (drop_oldest_image (ax1 self)) ;;
        modify (with_ax1 (fun _ => ax))) ;;
  modify (with_ax1 (attach_colorbar "reflectivity")).

(** The label of a profile line, line 271. *)
Definition profile_label (rg az : Z) : string :=
  "rg: " ++ format_03 rg ++ "; az: " ++ format_03 az.

(** [onclick(self, event)], lines 252-281. *)
Definition onclick (event : MouseEvent) : M t unit :=
  if in_ax1 event then
    rg <- lift (int (xdata event)) ;;
    az <- lift (int (ydata event)) ;;
    reset_crosshair rg az ;;
    self <- get ;;
    subset_vertical <- lift (getitem_ij (capon_bf_abs self) az rg) ;;
    subset_range <- lift (getitem_i (caponnorm self) az) ;;
    subset_azimuth <- lift (getitem_j (caponnorm self) rg) ;;
    when (negb (checkbox self)) init_vertical_plot ;;
    let label := profile_label rg az in
    self <- get ;;
    ax <- lift (plot (flipud subset_vertical)
                     (range (- height self) (height self + 1))
                     label (ax2 self)) ;;
    modify (with_ax2 (fun _ => ax)) ;;
    modify (with_ax2 (@make_legend V)) ;;
    modify (with_ax3 (imshow {| image_data := Raw (rot90 subset_range);
                                image_origin := Some "lower";
                                image_cmap := Some "jet";
                                image_aspect := Some "auto";
                                image_vmin := None;
                                image_vmax := None;
                                image_colorbar := None |})) ;;
    modify (with_ax3 (set_title
                        ("range slice at azimuth line " ++ str az))) ;;
    modify (with_ax4 (imshow {| image_data := Raw (rot90 subset_azimuth);
                                image_origin := Some "lower";
                                image_cmap := Some "jet";
                                image_aspect := Some "auto";
                                image_vmin := None;
                                image_vmax := None;
                                image_colorbar := None |})) ;;
    modify (with_ax4 (set_title
                        ("azimuth slice at range line " ++ str rg)))
  else ret tt.

(** Lines 101-177 of [__init__]: the object once the shapes have been
    found equal. *)
Definition construct (capon_bf_abs caponnorm : ndarray3 V) : t :=
  let height := Z.of_nat (dim2 capon_bf_abs) / 2 in
  let w := {| IntSlider.min := - height; IntSlider.max := height;
              IntSlider.step := 10; IntSlider.value := 0 |} in
  let side (width : nat) : Axes V :=
    set_yticks (ytick_lab height) (ytick_pos height)
               (set_xlim 0 (Z.of_nat width) new_axes) in
  let self :=
    {| height := height;
       capon_bf_abs := capon_bf_abs;
       caponnorm := caponnorm;
       slider := w;
       checkbox := true;
       ax1 := new_axes;
       ax2 := new_axes;
       ax3 := side (dim1 capon_bf_abs);
       ax4 := side (dim0 capon_bf_abs);
       lhor := 0;
       lver := 0 |} in
  let self := exec init_vertical_plot self in
  (* interactive_output runs the handler once on the slider's value
     and keeps what it raises inside the output widget *)
  exec (onslide (IntSlider.value w)) self.

(** What those lines make and show. *)
Definition construct_effects (self : t) : list ui_effect :=
  [SliderCreated (slider self);
   CheckboxCreated true;
   ButtonCreated "clear vertical plot"; FormDisplayed;
   FigureCreated; SubplotAdded Ax1; SubplotAdded Ax2;
   SubplotAdded Ax3; SubplotAdded Ax4;
   CallbackConnected "button_press_event";
   CallbackConnected "slider"].

(** [__init__(self, capon_bf_abs, caponnorm)], lines 98-177: what it
    has made and shown, and the object or the exception. *)
Definition __init__ (capon_bf_abs caponnorm : ndarray3 V)
  : list ui_effect * outcome t :=
  if negb (shape_eqb (shape3 caponnorm) (shape3 capon_bf_abs))
  then ([], Raised (RuntimeError "mismatch of input arrays"))
  else
    let self := construct capon_bf_abs caponnorm in
    (construct_effects self, Returned self).

(** *** The session: events arrive one at a time, each handler runs to
    its end, and an exception raised by a handler is reported by the
    toolkit and does not stop the session. *)
Inductive ui_event : Type :=
| SliderMoved (h : Z)
| CheckboxSet (b : bool)
| ClearClicked
| ButtonPress (event : MouseEvent).

Definition handle (ev : ui_event) : M t unit :=
  match ev with
  | SliderMoved h =>
      modify (fun self => set_slider (IntSlider.set_value h (slider self)) self) ;;
      onslide h
  | CheckboxSet b => modify (set_checkbox b)
  | ClearClicked => init_vertical_plot
  | ButtonPress event => onclick event
  end.

Definition step (self : t) (ev : ui_event) : t := exec (handle ev) self.

Definition run (evs : list ui_event) (self : t) : t :=
  fold_left step evs self.

End Explorer.
End Tomographyplot.

(* ===================================================================== *)
(** ** Well-formed explorers, clicks on a pixel, and concrete sessions *)
(* ===================================================================== *)

Module Session.
Import Py Np Mpl Tomographyplot.

Section Explorer.
Variable V : Type.

(** What [__init__] establishes and no handler changes: the two
    volumes have one shape and [height] is half the height dimension. *)
Definition well_formed (self : t V) : Prop :=
  shape3 (caponnorm self) = shape3 (capon_bf_abs self) /\
  height self = Z.of_nat (dim2 (capon_bf_abs self)) / 2 /\
  IntSlider.min (slider self) = - height self /\
  IntSlider.max (slider self) = height self.

(** The height axis has an odd number of layers. *)
Definition odd_height (self : t V) : bool :=
  Nat.odd (dim2 (capon_bf_abs self)).

(** The pixel a click is converted to, as [(rg, az)]. *)
Definition pixel (event : MouseEvent) : option (Z * Z) :=
  match xdata event, ydata event with
  | Some x, Some y => Some (int_of_float x, int_of_float y)
  | _, _ => None
  end.

(** The click lies in the horizontal-slice panel and its pixel is one
    that numpy accepts as an index into the volume. *)
Definition on_pixel (self : t V) (event : MouseEvent) : bool :=
  in_ax1 event &&
  match pixel event with
  | Some (rg, az) =>
      completes (index (dim0 (capon_bf_abs self)) az) &&
      completes (index (dim1 (capon_bf_abs self)) rg)
  | None => false
  end.

(** The label the click's profile line gets. *)
Definition label_of (event : MouseEvent) : string :=
  match pixel event with
  | Some (rg, az) => profile_label rg az
  | None => ""
  end.

(** The image layer drawn last on a panel. *)
Definition shown (ax : Axes V) : option (picture V) :=
  match rev (images ax) with
  | [] => None
  | im :: _ => Some (image_data im)
  end.

(** The horizontal layer [k] of a volume. *)
Definition layer (a : ndarray3 V) (k : nat) : ndarray2 V :=
  {| shape2 := (dim0 a, dim1 a); at2 := fun i j => at3 a i j k |}.

(** What [init_vertical_plot] makes of the profile panel. *)
Definition cleared_panel (height : Z) (ax : Axes V) : Axes V :=
  set_ylim (- height) height
    (set_title "vertical point profiles"
       (set_xlabel "reflectivity"
          (set_ylabel "height [m]"
             (if (0 <? List.length (lines ax))%nat then cla ax else ax)))).

(** The line that line 272 draws for the profile [p]. *)
Definition profile_line (height : Z) (p : list V) (rg az : Z) : Line2D V :=
  {| line_xdata := flipud p;
     line_ydata := range (- height) (height + 1);
     line_label := profile_label rg az |}.

(** The height index that [onslide] reads for the slider value [h]. *)
Definition slice_index (self : t V) (h : Z) : Z := height self - h.

(** The slider value [h] can be shown without an index error. *)
Definition index_safe (self : t V) (h : Z) : bool :=
  completes (getitem_k (caponnorm self) (slice_index self h)).

(** The parts of the object that stay as construction left them. *)
Definition fixed_parts (self : t V) :=
  (height self, capon_bf_abs self, caponnorm self,
   IntSlider.min (slider self), IntSlider.max (slider self),
   yticks (ax3 self), yticklabels (ax3 self),
   yticks (ax4 self), yticklabels (ax4 self)).

(** The explorers a session can be in: the one [__init__] returns for
    two volumes of one shape, and the ones reached from it by events. *)
Inductive reachable : t V -> Prop :=
| reach_construct (capon_bf_abs caponnorm : ndarray3 V) :
    shape3 caponnorm = shape3 capon_bf_abs ->
    reachable (construct capon_bf_abs caponnorm)
| reach_step (self : t V) (ev : ui_event) :
    reachable self -> reachable (step self ev).

(** Nothing but lines, texts, y-limits and the legend is ever put on
    the profile panel. *)
Definition plain_panel (ax : Axes V) : Prop :=
  images ax = [] /\ xlim ax = (inject_Z 0, inject_Z 1) /\
  yticks ax = None /\ yticklabels ax = None.

(** The line a click on a pixel draws. *)
Definition clicked_line (self : t V) (event : MouseEvent) : Line2D V :=
  match pixel event with
  | Some (rg, az) =>
      match getitem_ij (capon_bf_abs self) az rg with
      | Returned p => profile_line (height self) p rg az
      | Raised _ => profile_line (height self) [] rg az
      end
  | None => profile_line (height self) [] 0 0
  end.

(** The profile-panel settings the clear action restores. *)
Definition profile_settings (ax : Axes V)
  : list (Line2D V) * string * string * string * (Q * Q) :=
  (lines ax, title ax, xlabel ax, ylabel ax, ylim ax).

End Explorer.

(** A list reads the same from both ends up to sign. *)
Definition symmetric (l : list Z) : Prop := map Z.opp (rev l) = l.

(** Concrete volumes over integer samples: the sample at
    [(az, rg, k)] is [100 az + 10 rg + k]. *)
Definition volume (n0 n1 n2 : nat) : ndarray3 Z :=
  {| shape3 := (n0, n1, n2);
     at3 := fun i j k => Z.of_nat (100 * i + 10 * j + k) |}.

(** A volume of three layers (half-height 1) and one of two layers
    (half-height 1 as well), both two pixels by two. *)
Definition odd_volume : ndarray3 Z := volume 2 2 3.
Definition even_volume : ndarray3 Z := volume 2 2 2.

Definition odd_explorer : t Z := construct odd_volume odd_volume.
Definition even_explorer : t Z := construct even_volume even_volume.

(** The explorers with the stacking checkbox cleared. *)
Definition odd_explorer_unstacked : t Z := step odd_explorer (CheckboxSet false).
Definition even_explorer_unstacked : t Z := step even_explorer (CheckboxSet false).

(** A volume of a single layer: half-height 0. *)
Definition flat_explorer : t Z := construct (volume 2 2 1) (volume 2 2 1).

(** Lines 173-174: the height that the cursor read-out of the range and
    azimuth panels shows at the ordinate [y], [int(y - self.height)].
    The float subtraction is exact at the tick positions, which are
    multiples of one half. *)
Definition height_readout (height : Z) (y : Q) : Z :=
  int_of_float (y - inject_Z height).

(** A volume of eleven layers: half-height 5. *)
Definition tall_explorer : t Z := construct (volume 1 1 11) (volume 1 1 11).

(** A click in the horizontal-slice panel at data position [(x, y)]. *)
Definition click (x y : Q) : MouseEvent :=
  {| inaxes := Some Ax1; xdata := Some x; ydata := Some y |}.

(** A click in the profile panel. *)
Definition click_elsewhere : MouseEvent :=
  {| inaxes := Some Ax2; xdata := Some (1 # 2); ydata := Some (1 # 2) |}.

(** Three input files with their phase and wavenumber companions. *)
Definition demo_viewer : DataViewer.t Z :=
  DataViewer.__init__
    ["/data/slc/scene_0.tif"; "/data/slc/scene_1.tif"; "/data/slc/scene_2.tif"]
    ["/data/pha/phase_0.tif"; "/data/pha/phase_1.tif"; "/data/pha/phase_2.tif"]
    ["/data/kz/kz_0.tif"; "/data/kz/kz_1.tif"; "/data/kz/kz_2.tif"]
    (volume 2 2 3) (volume 2 2 3) (volume 2 2 3).

End Session.

(* ===================================================================== *)
(** ** Further observations on both viewers *)
(* ===================================================================== *)

Module Observations.
Import Py Np Mpl Session.

(** A path or name without a directory separator. *)
Definition no_slash (s : string) : bool :=
  all_chars (fun c => negb (Ascii.eqb c "/")) s.

(** Line 171, [self.ax1.format_coord]: the cursor read-out of the
    horizontal-slice panel. *)
Definition ax1_format_coord (x y : Q) : string :=
  "range=" ++ str (int_of_float x) ++ ", azimuth=" ++ str (int_of_float y)
  ++ ", reflectivity=".

Section Viewer.
Variable V : Type.

(** The image layers [DataViewer.onslide] draws, lines 86-88. *)
Definition amplitude_image (m : ndarray2 V) (pp : bound V * bound V)
  : AxesImage V :=
  {| image_data := LogAmplitude m; image_origin := None;
     image_cmap := Some "gray"; image_aspect := None;
     image_vmin := Some (fst pp); image_vmax := Some (snd pp);
     image_colorbar := None |}.

Definition magnitude_image (m : ndarray2 V) : AxesImage V :=
  {| image_data := Magnitude m; image_origin := None;
     image_cmap := None; image_aspect := None;
     image_vmin := None; image_vmax := None;
     image_colorbar := None |}.

(** A run of slider moves on the input viewer; what a handler raises is
    kept by the output widget. *)
Definition slides (hs : list Z) (self : DataViewer.t V) : DataViewer.t V :=
  fold_left (fun s h => exec (DataViewer.onslide h) s) hs self.

(** The three labels of a slider value can be read. *)
Definition labels_resolve (self : DataViewer.t V) (h : Z) : bool :=
  completes (getitem (DataViewer.slc_list self) h) &&
  completes (getitem (DataViewer.phase_list self) (h - 1)) &&
  completes (getitem (DataViewer.kz_list self) (h - 1)).

(** The three frames of a slider value can be read. *)
Definition frames_resolve (self : DataViewer.t V) (h : Z) : bool :=
  completes (getitem_k (DataViewer.slc_stack self) h) &&
  completes (getitem_k (DataViewer.phase_stack self) h) &&
  completes (getitem_k (DataViewer.kz_stack self) h).

(** Every frame of the three stacks has at least one pixel. *)
Definition frames_have_pixels (self : DataViewer.t V) : bool :=
  (0 <? dim0 (DataViewer.slc_stack self) * dim1 (DataViewer.slc_stack self))%nat &&
  (0 <? dim0 (DataViewer.phase_stack self) * dim1 (DataViewer.phase_stack self))%nat &&
  (0 <? dim0 (DataViewer.kz_stack self) * dim1 (DataViewer.kz_stack self))%nat.

(** The colour limits of the amplitude image of the frame [m]. *)
Definition stretch (m : ndarray2 V) : bound V * bound V :=
  (Percentile 2 (LogAmplitude m), Percentile 98 (LogAmplitude m)).

(** How many image layers each of the three panels holds. *)
Definition layer_counts (self : DataViewer.t V) : nat * nat * nat :=
  (List.length (images (DataViewer.ax1 self)),
   List.length (images (DataViewer.ax2 self)),
   List.length (images (DataViewer.ax3 self))).

End Viewer.

(** Three input files over stacks of a single frame. *)
Definition shallow_viewer : DataViewer.t Z :=
  DataViewer.__init__
    ["a/s0"; "a/s1"; "a/s2"] ["b/p0"; "b/p1"] ["c/k0"; "c/k1"]
    (volume 1 1 1) (volume 1 1 1) (volume 1 1 1).

(** Three input files over stacks whose frames have no pixel. *)
Definition empty_viewer : DataViewer.t Z :=
  DataViewer.__init__
    ["a/s0"; "a/s1"; "a/s2"] ["b/p0"; "b/p1"] ["c/k0"; "c/k1"]
    (volume 0 0 3) (volume 0 0 3) (volume 0 0 3).

Section Explorer.
Import Tomographyplot.
Variable V : Type.

(** The image layer [onslide] leaves on the first panel for the slice [m]. *)
Definition slice_image (m : ndarray2 V) : AxesImage V :=
  {| image_data := Raw m;
     image_origin := Some "upper";
     image_cmap := Some "jet";
     image_aspect := None;
     image_vmin := None;
     image_vmax := None;
     image_colorbar := Some "reflectivity" |}.

(** The first panel as [onslide] leaves it for the slider value [h] and
    the slice [m]. *)
Definition slice_panel (h : Z) (m : ndarray2 V) (ax : Axes V) : Axes V :=
  set_images [slice_image m]
    (set_title ("horizontal slice at height " ++ str h ++ " m")
       (set_ylabel "azimuth" (set_xlabel "range" ax))).

(** The first panel holds at most one image layer, with its colour bar. *)
Definition tidy_slice_panel (ax : Axes V) : Prop :=
  (List.length (images ax) <= 1)%nat /\
  Forall (fun im => image_colorbar im <> None) (images ax).

(** The legend of a panel lists the labels of its lines, and there is no
    legend without lines. *)
Definition legend_matches (ax : Axes V) : Prop :=
  legend ax = match lines ax with
              | [] => None
              | _ :: _ => Some (map (@line_label V) (lines ax))
              end.

(** The cross-hair position [(lhor, lver)] that a run of events leads to:
    only a click in the first panel that carries a position moves it. *)
Definition track_crosshair (start : Z * Z) (evs : list ui_event) : Z * Z :=
  fold_left
    (fun pos ev =>
       match ev with
       | ButtonPress event =>
           if in_ax1 event then
             match pixel event with
             | Some (rg, az) => (az, rg)
             | None => pos
             end
           else pos
       | _ => pos
       end)
    evs start.

(** The image layer a click leaves on a side panel for the slice [m]. *)
Definition side_image (m : ndarray2 V) : AxesImage V :=
  {| image_data := Raw (rot90 m);
     image_origin := Some "lower";
     image_cmap := Some "jet";
     image_aspect := Some "auto";
     image_vmin := None;
     image_vmax := None;
     image_colorbar := None |}.

(** [a[i, :, :]] and [a[:, j, :]] for indices inside the axes. *)
Definition row_slice (a : ndarray3 V) (i : nat) : ndarray2 V :=
  {| shape2 := (dim1 a, dim2 a); at2 := fun j k => at3 a i j k |}.

Definition column_slice (a : ndarray3 V) (j : nat) : ndarray2 V :=
  {| shape2 := (dim0 a, dim2 a); at2 := fun i k => at3 a i j k |}.

(** The range-slice and azimuth-slice panels after a click at the pixel
    [(rg, az)] that numpy reads as row [i] and column [j]. *)
Definition range_panel (self : t V) (az : Z) (i : nat) (ax : Axes V) : Axes V :=
  set_title ("range slice at azimuth line " ++ str az)
    (imshow (side_image (row_slice (caponnorm self) i)) ax).

Definition azimuth_panel (self : t V) (rg : Z) (j : nat) (ax : Axes V) : Axes V :=
  set_title ("azimuth slice at range line " ++ str rg)
    (imshow (side_image (column_slice (caponnorm self) j)) ax).

(** Everything on the object but the first panel and the slider value. *)
Definition beside_slice_panel (self : t V) :=
  (height self, capon_bf_abs self, caponnorm self, checkbox self,
   ax2 self, ax3 self, ax4 self, lhor self, lver self).

(** Everything on the object but the profile panel. *)
Definition beside_profile_panel (self : t V) :=
  (height self, capon_bf_abs self, caponnorm self, slider self,
   checkbox self, ax1 self, ax3 self, ax4 self, lhor self, lver self).

End Explorer.
End Observations.

(* ===================================================================== *)
(** ** Facts about the Python primitives *)
(* ===================================================================== *)

Module PyFacts.
Import Py.

Lemma index_front (n : nat) (i : Z) :
  0 <= i < Z.of_nat n -> index n i = Returned (Z.to_nat i).
Proof.
  intros Hi. unfold index.
  destruct (Z.leb_spec 0 i); [|lia].
  destruct (Z.ltb_spec i (Z.of_nat n)); [|lia].
  reflexivity.
Qed.

Lemma index_beyond (n : nat) (i : Z) :
  Z.of_nat n <= i -> index n i = Raised IndexError.
Proof.
  intros Hi. unfold index.
  destruct (Z.leb_spec 0 i); [|lia].
  destruct (Z.ltb_spec i (Z.of_nat n)); [lia|].
  destruct (Z.ltb_spec i 0); [lia|].
  cbn. rewrite andb_false_r. reflexivity.
Qed.

Lemma getitem_front {A} (l : list A) (i : Z) :
  0 <= i < Z.of_nat (List.length l) ->
  exists a, nth_error l (Z.to_nat i) = Some a /\ getitem l i = Returned a.
Proof.
  intros Hi. unfold getitem. rewrite index_front by exact Hi.
  destruct (nth_error l (Z.to_nat i)) as [a|] eqn:E.
  - exists a. split; reflexivity.
  - apply nth_error_None in E. lia.
Qed.

Lemma range_length (lo hi : Z) :
  List.length (range lo hi) = Z.to_nat (hi - lo).
Proof. unfold range. rewrite length_map, length_seq. reflexivity. Qed.

(** [int] on a float drops the fraction: the result is the integer
    next to [x] on the side of zero. *)
Lemma int_of_float_truncates (x : Q) :
  (0 <= x -> inject_Z (int_of_float x) <= x < inject_Z (int_of_float x) + 1)%Q /\
  (x <= 0 -> inject_Z (int_of_float x) - 1 < x <= inject_Z (int_of_float x))%Q.
Proof.
  destruct x as [a b]. unfold int_of_float, Qle, Qlt. cbn.
  pose proof (Z.quot_rem' a (Zpos b)) as E.
  split; intros Ha.
  - assert (0 <= a) by lia.
    pose proof (Z.rem_bound_pos_pos a (Zpos b) ltac:(lia) ltac:(lia)).
    nia.
  - assert (a <= 0) by lia.
    pose proof (Z.rem_bound_pos_neg a (Zpos b) ltac:(lia) ltac:(lia)).
    nia.
Qed.

(** *** Printing integers loses nothing *)

Lemma zeros_digits (k : nat) (n : N) :
  (zeros k ++ digits n)%string = NilEmpty.string_of_uint (pad k (N.to_uint n)).
Proof.
  induction k as [|k IH]; cbn.
  - reflexivity.
  - rewrite IH. reflexivity.
Qed.

Lemma of_uint_pad (k : nat) (u : Decimal.uint) :
  N.of_uint (pad k u) = N.of_uint u.
Proof. induction k as [|k IH]; cbn; [reflexivity | exact IH]. Qed.

Lemma string_of_uint_inj (u v : Decimal.uint) :
  NilEmpty.string_of_uint u = NilEmpty.string_of_uint v -> u = v.
Proof.
  intros E. apply (f_equal NilEmpty.uint_of_string) in E.
  rewrite !NilEmpty.usu in E. congruence.
Qed.

Lemma zeros_digits_inj (k k' : nat) (n n' : N) :
  (zeros k ++ digits n)%string = (zeros k' ++ digits n')%string -> n = n'.
Proof.
  rewrite !zeros_digits. intros E%string_of_uint_inj.
  apply (f_equal N.of_uint) in E.
  rewrite !of_uint_pad, !DecimalN.Unsigned.of_to in E. exact E.
Qed.

Lemma all_chars_app (p : ascii -> bool) (a b : string) :
  all_chars p (a ++ b) = all_chars p a && all_chars p b.
Proof.
  induction a as [|c a IH]; cbn; [reflexivity|].
  rewrite IH, andb_assoc. reflexivity.
Qed.

Lemma all_chars_weaken (p q : ascii -> bool) (s : string) :
  (forall c, p c = true -> q c = true) ->
  all_chars p s = true -> all_chars q s = true.
Proof.
  intros Hpq. induction s as [|c s IH]; cbn; [reflexivity|].
  intros [Hc Hs]%andb_prop. rewrite (Hpq _ Hc), (IH Hs). reflexivity.
Qed.

Lemma string_of_uint_digits (u : Decimal.uint) :
  all_chars is_digit (NilEmpty.string_of_uint u) = true.
Proof. induction u; cbn; try exact IHu; reflexivity. Qed.

Lemma zeros_digits_all (k : nat) (n : N) :
  all_chars is_digit (zeros k ++ digits n) = true.
Proof. rewrite zeros_digits. apply string_of_uint_digits. Qed.

Lemma format_03_chars (z : Z) : all_chars sign_or_digit (format_03 z) = true.
Proof.
  unfold format_03. destruct (z <? 0).
  - cbn. apply all_chars_weaken with (p := is_digit).
    + intros c Hc. unfold sign_or_digit. rewrite Hc. reflexivity.
    + apply zeros_digits_all.
  - apply all_chars_weaken with (p := is_digit).
    + intros c Hc. unfold sign_or_digit. rewrite Hc. reflexivity.
    + apply zeros_digits_all.
Qed.

Lemma format_03_inj (z z' : Z) : format_03 z = format_03 z' -> z = z'.
Proof.
  unfold format_03.
  destruct (Z.ltb_spec z 0) as [Hz|Hz]; destruct (Z.ltb_spec z' 0) as [Hz'|Hz'].
  - cbn. intros [= E]. apply zeros_digits_inj in E. lia.
  - intros E.
    pose proof (zeros_digits_all (3 - String.length (digits (Z.abs_N z')))
                                 (Z.abs_N z')) as D.
    rewrite <- E in D. cbn in D. discriminate.
  - intros E.
    pose proof (zeros_digits_all (3 - String.length (digits (Z.abs_N z)))
                                 (Z.abs_N z)) as D.
    rewrite E in D. cbn in D. discriminate.
  - intros E. apply zeros_digits_inj in E. lia.
Qed.

(** Two texts that end at their first semicolon are equal when what
    they start is. *)
Lemma split_at_semicolon (a a' r r' : string) :
  all_chars sign_or_digit a = true ->
  all_chars sign_or_digit a' = true ->
  (a ++ String ";" r)%string = (a' ++ String ";" r')%string ->
  a = a' /\ r = r'.
Proof.
  revert a'. induction a as [|c a IH]; intros [|c' a'] Ha Ha'; cbn.
  - intros [= ->]. split; reflexivity.
  - intros [= <- _]. cbn in Ha'. discriminate.
  - intros [= -> _]. cbn in Ha. discriminate.
  - intros [= -> E]. cbn in Ha, Ha'.
    apply andb_prop in Ha as [_ Ha]. apply andb_prop in Ha' as [_ Ha'].
    destruct (IH a' Ha Ha' E) as [-> ->]. split; reflexivity.
Qed.

End PyFacts.

(* ===================================================================== *)
(** ** The input viewer *)
(* ===================================================================== *)

Module DataViewerFacts.
Import Py Np Mpl DataViewer PyFacts.

Section Viewer.
Variable V : Type.
Implicit Types (self : DataViewer.t V) (h : Z).

(** The labels are read at [h], [h - 1] and [h - 1] whenever the phase
    and wavenumber sequences are long enough for the slider. *)
Lemma onslide_titles self h :
  in_slider_range (make_slider (slc_list self)) h ->
  Z.of_nat (List.length (slc_list self)) - 1
    <= Z.of_nat (List.length (phase_list self)) ->
  Z.of_nat (List.length (slc_list self)) - 1
    <= Z.of_nat (List.length (kz_list self)) ->
  exists a p k,
    nth_error (slc_list self) (Z.to_nat h) = Some a /\
    nth_error (phase_list self) (Z.to_nat (h - 1)) = Some p /\
    nth_error (kz_list self) (Z.to_nat (h - 1)) = Some k /\
    titles (exec (onslide h) self) =
      ("SLC intensity: " ++ basename a,
       "phase: " ++ basename p,
       "wavenumber: " ++ basename k)%string.
Proof.
  unfold in_slider_range, make_slider. cbn. intros Hh Hp Hk.
  destruct (@getitem_front _ (slc_list self) h) as (a & Ea & Ga); [lia|].
  destruct (@getitem_front _ (phase_list self) (h - 1)) as (p & Ep & Gp); [lia|].
  destruct (@getitem_front _ (kz_list self) (h - 1)) as (k & Ek & Gk); [lia|].
  exists a, p, k. repeat split; try assumption.
  unfold onslide, exec, bind, get, lift, modify, titles.
  rewrite Ga, Gp, Gk. cbn -[percentile].
  destruct (getitem_k (slc_stack self) h) as [amp|]; cbn -[percentile];
    [|reflexivity].
  destruct (percentile (LogAmplitude amp) 2 98); cbn; [|reflexivity].
  destruct (getitem_k (phase_stack self) h); cbn; [|reflexivity].
  destruct (getitem_k (kz_stack self) h); cbn; reflexivity.
Qed.

End Viewer.
End DataViewerFacts.

(* ===================================================================== *)
(** ** The volume explorer: how each handler runs *)
(* ===================================================================== *)

Module ExplorerFacts.
Import Py Np Mpl Tomographyplot Session PyFacts.

Lemma shape_eqb_eq (s u : nat * nat * nat) :
  shape_eqb s u = true <-> s = u.
Proof.
  destruct s as [[s0 s1] s2], u as [[u0 u1] u2]. cbn.
  rewrite !andb_true_iff, !Nat.eqb_eq. split.
  - intros [[-> ->] ->]. reflexivity.
  - intros [= -> -> ->]. auto.
Qed.

Section Explorer.
Variable V : Type.
Implicit Types (self : t V) (event : MouseEvent) (h : Z).

Lemma init_vertical_plot_run self :
  init_vertical_plot self
  = (with_ax2 (cleared_panel (height self)) self, Returned tt).
Proof.
  unfold init_vertical_plot, cleared_panel, bind, get, when, modify, ret.
  destruct (lines (ax2 self)) eqn:E; unfold with_ax2; cbn; rewrite E;
    reflexivity.
Qed.

Lemma cleared_panel_lines (H : Z) (ax : Axes V) :
  lines (cleared_panel H ax) = [].
Proof.
  unfold cleared_panel. cbn.
  destruct (lines ax) eqn:E; cbn; [exact E | reflexivity].
Qed.

Lemma cleared_panel_settings (H : Z) (ax : Axes V) :
  profile_settings (cleared_panel H ax)
  = ([], "vertical point profiles", "reflectivity", "height [m]",
     nonsingular (- H) H).
Proof.
  unfold profile_settings. rewrite cleared_panel_lines. reflexivity.
Qed.

Lemma nonsingular_distinct (lo hi : Z) :
  lo <> hi -> nonsingular lo hi = (inject_Z lo, inject_Z hi).
Proof.
  intros N. unfold nonsingular.
  destruct (Z.eqb_spec lo hi); [contradiction | reflexivity].
Qed.

(** *** [onslide] *)

Lemma rev_snoc {A} (l : list A) (x : A) : rev (l ++ [x]) = x :: rev l.
Proof. rewrite rev_app_distr. reflexivity. Qed.

Lemma shown_attach_colorbar (lab : string) (ax : Axes V) :
  shown (attach_colorbar lab ax) = shown ax.
Proof.
  unfold shown, attach_colorbar.
  destruct (rev (images ax)) as [|p1 older] eqn:E.
  - rewrite E. reflexivity.
  - cbn. rewrite rev_snoc. reflexivity.
Qed.

(** The handler touches the first panel and nothing else. *)
Lemma onslide_frame h self :
  let self' := exec (onslide h) self in
  height self' = height self /\
  capon_bf_abs self' = capon_bf_abs self /\
  caponnorm self' = caponnorm self /\
  slider self' = slider self /\
  checkbox self' = checkbox self /\
  ax2 self' = ax2 self /\ ax3 self' = ax3 self /\ ax4 self' = ax4 self /\
  lhor self' = lhor self /\ lver self' = lver self.
Proof.
  unfold onslide, exec, bind, get, lift, when, modify, ret. cbn.
  destruct (getitem_k (caponnorm self) (height self - h)); cbn;
    [|repeat split].
  match goal with |- context [if ?c then _ else _] => destruct c end; cbn;
    [|repeat split].
  match goal with |- context [drop_oldest_image ?x] =>
    destruct (drop_oldest_image x) end; cbn; repeat split.
Qed.

(** When the index is refused nothing is drawn. *)
Lemma onslide_index_error h self :
  getitem_k (caponnorm self) (height self - h) = Raised IndexError ->
  onslide h self = (self, Raised IndexError).
Proof.
  intros E. unfold onslide, bind, get, lift. rewrite E. reflexivity.
Qed.

(** When the index is accepted the layer it names is the one shown. *)
Lemma onslide_shows h self (m : ndarray2 V) :
  getitem_k (caponnorm self) (height self - h) = Returned m ->
  shown (ax1 (exec (onslide h) self)) = Some (Raw m).
Proof.
  intros E. unfold onslide, exec, bind, get, lift, when, modify, ret.
  rewrite E. cbn.
  match goal with |- context [if ?c then _ else _] => destruct c eqn:L end;
    cbn.
  - unfold drop_oldest_image. cbn.
    destruct (images (ax1 self)) as [|im0 rest] eqn:I; cbn.
    + cbn in L. discriminate.
    + destruct (image_colorbar im0); cbn.
      * rewrite shown_attach_colorbar. unfold shown. cbn.
        rewrite rev_snoc. reflexivity.
      * unfold shown. cbn. rewrite I. cbn.
        change (im0 :: rest ++ [?x]) with ((im0 :: rest) ++ [x]).
        rewrite rev_snoc. reflexivity.
  - rewrite shown_attach_colorbar. unfold shown. cbn.
    rewrite rev_snoc. reflexivity.
Qed.

Lemma getitem_k_front (a : ndarray3 V) (k : Z) :
  0 <= k < Z.of_nat (dim2 a) ->
  getitem_k a k = Returned (layer a (Z.to_nat k)).
Proof.
  intros Hk. unfold getitem_k. rewrite index_front by exact Hk.
  reflexivity.
Qed.

Lemma getitem_k_beyond (a : ndarray3 V) (k : Z) :
  Z.of_nat (dim2 a) <= k -> getitem_k a k = Raised IndexError.
Proof.
  intros Hk. unfold getitem_k. rewrite index_beyond by exact Hk.
  reflexivity.
Qed.

(** *** [onclick] *)

Lemma onclick_outside event self :
  in_ax1 event = false -> onclick event self = (self, Returned tt).
Proof. intros E. unfold onclick. rewrite E. reflexivity. Qed.

Lemma odd_height_layers self :
  well_formed self -> odd_height self = true ->
  Z.of_nat (dim2 (capon_bf_abs self)) = 2 * height self + 1.
Proof.
  intros (_ & HH & _) Hodd. unfold odd_height in Hodd.
  apply Nat.odd_spec in Hodd as [m Hm]. rewrite HH, Hm.
  replace (Z.of_nat (2 * m + 1)) with (2 * Z.of_nat m + 1) by lia.
  rewrite (Z.mul_comm 2), Z.div_add_l by lia.
  change (1 / 2) with 0. lia.
Qed.

Lemma even_height_layers self :
  well_formed self -> odd_height self = false ->
  Z.of_nat (dim2 (capon_bf_abs self)) = 2 * height self.
Proof.
  intros (_ & HH & _) Hodd. unfold odd_height in Hodd.
  rewrite <- Nat.negb_even in Hodd. apply negb_false_iff in Hodd.
  apply Nat.even_spec in Hodd as [m Hm]. rewrite HH, Hm.
  replace (Z.of_nat (2 * m)) with (Z.of_nat m * 2) by lia.
  rewrite Z.div_mul by lia. lia.
Qed.

(** A click in the first panel moves the cross-hair to the truncated
    position before anything else can fail. *)
Lemma onclick_crosshair event self (x y : Q) :
  in_ax1 event = true -> xdata event = Some x -> ydata event = Some y ->
  lver (exec (onclick event) self) = int_of_float x /\
  lhor (exec (onclick event) self) = int_of_float y.
Proof.
  intros Hin Hx Hy. unfold onclick. rewrite Hin, Hx, Hy.
  unfold exec, bind, lift, int, reset_crosshair, get, modify, when, ret.
  cbn -[init_vertical_plot plot].
  destruct (getitem_ij _ _ _); cbn -[init_vertical_plot plot];
    [|split; reflexivity].
  destruct (getitem_i _ _); cbn -[init_vertical_plot plot];
    [|split; reflexivity].
  destruct (getitem_j _ _); cbn -[init_vertical_plot plot];
    [|split; reflexivity].
  destruct (checkbox self); cbn -[init_vertical_plot plot].
  - destruct (plot _ _ _ _); cbn; split; reflexivity.
  - rewrite init_vertical_plot_run. cbn -[plot].
    destruct (plot _ _ _ _); cbn; split; reflexivity.
Qed.

Lemma getitem_ij_length (a : ndarray3 V) (i j : Z) (p : list V) :
  getitem_ij a i j = Returned p -> List.length p = dim2 a.
Proof.
  unfold getitem_ij.
  destruct (index (dim0 a) i); [|discriminate].
  destruct (index (dim1 a) j); [|discriminate].
  intros [= <-]. rewrite length_map, length_seq. reflexivity.
Qed.

(** A click on a pixel gets its profile, range slice and azimuth slice. *)
Lemma on_pixel_subsets event self :
  well_formed self -> on_pixel self event = true ->
  exists x y i j,
    in_ax1 event = true /\
    xdata event = Some x /\ ydata event = Some y /\
    index (dim0 (capon_bf_abs self)) (int_of_float y) = Returned i /\
    index (dim1 (capon_bf_abs self)) (int_of_float x) = Returned j /\
    getitem_ij (capon_bf_abs self) (int_of_float y) (int_of_float x)
      = Returned (map (at3 (capon_bf_abs self) i j)
                      (seq 0 (dim2 (capon_bf_abs self)))) /\
    completes (getitem_i (caponnorm self) (int_of_float y)) = true /\
    completes (getitem_j (caponnorm self) (int_of_float x)) = true.
Proof.
  intros (Hs & _) Hon. unfold on_pixel, pixel in Hon.
  apply andb_prop in Hon as [Hin Hon].
  destruct (xdata event) as [x|]; [|discriminate].
  destruct (ydata event) as [y|]; [|discriminate].
  apply andb_prop in Hon as [Hi Hj].
  destruct (index (dim0 (capon_bf_abs self)) (int_of_float y)) as [i|] eqn:Ei;
    [|discriminate].
  destruct (index (dim1 (capon_bf_abs self)) (int_of_float x)) as [j|] eqn:Ej;
    [|discriminate].
  exists x, y, i, j. repeat split; try assumption.
  - unfold getitem_ij. rewrite Ei, Ej. reflexivity.
  - unfold getitem_i, dim0. rewrite Hs. fold (dim0 (capon_bf_abs self)).
    rewrite Ei. reflexivity.
  - unfold getitem_j, dim1. rewrite Hs. fold (dim1 (capon_bf_abs self)).
    rewrite Ej. reflexivity.
Qed.

(** What a click on a pixel leaves on the profile panel: the panel as
    it was (stacking) or cleared (not stacking), plus, when the volume
    has as many layers as the height axis has values, the new line. *)
Lemma onclick_on_pixel event self :
  well_formed self -> on_pixel self event = true ->
  exists rg az p,
    pixel event = Some (rg, az) /\
    getitem_ij (capon_bf_abs self) az rg = Returned p /\
    let base := if checkbox self then ax2 self
                else cleared_panel (height self) (ax2 self) in
    if odd_height self then
      result (onclick event) self = Returned tt /\
      ax2 (exec (onclick event) self)
      = make_legend
          (set_lines (lines base ++ [profile_line (height self) p rg az])
                     base)
    else
      result (onclick event) self = Raised ValueError /\
      ax2 (exec (onclick event) self) = base.
Proof.
  intros Hwf Hon.
  destruct (@on_pixel_subsets event self Hwf Hon)
    as (x & y & i & j & Hin & Hx & Hy & Ei & Ej & Ep & Er & Ea).
  exists (int_of_float x), (int_of_float y),
    (map (at3 (capon_bf_abs self) i j) (seq 0 (dim2 (capon_bf_abs self)))).
  split; [unfold pixel; rewrite Hx, Hy; reflexivity|].
  split; [exact Ep|].
  unfold onclick, result, exec. rewrite Hin, Hx, Hy.
  unfold bind, lift, int, reset_crosshair, get, modify, when, ret.
  cbn -[init_vertical_plot plot getitem_ij getitem_i getitem_j].
  rewrite Ep.
  destruct (getitem_i (caponnorm self) (int_of_float y)) as [sr|];
    [|discriminate].
  destruct (getitem_j (caponnorm self) (int_of_float x)) as [sa|];
    [|discriminate].
  cbn -[init_vertical_plot plot].
  assert (Hlen : forall ax : Axes V,
             plot (flipud (map (at3 (capon_bf_abs self) i j)
                               (seq 0 (dim2 (capon_bf_abs self)))))
                  (range (- height self) (height self + 1))
                  (profile_label (int_of_float x) (int_of_float y)) ax
             = if odd_height self
               then Returned
                      (set_lines
                         (lines ax ++
                            [profile_line (height self)
                               (map (at3 (capon_bf_abs self) i j)
                                    (seq 0 (dim2 (capon_bf_abs self))))
                               (int_of_float x) (int_of_float y)]) ax)
               else Raised ValueError).
  { intros ax. unfold plot, flipud.
    rewrite length_rev, length_map, length_seq, range_length.
    destruct (odd_height self) eqn:Hodd.
    - pose proof (odd_height_layers Hwf Hodd) as HL.
      replace (Nat.eqb _ _) with true; [reflexivity|].
      symmetry. apply Nat.eqb_eq. lia.
    - pose proof (even_height_layers Hwf Hodd) as HL.
      replace (Nat.eqb _ _) with false; [reflexivity|].
      symmetry. apply Nat.eqb_neq.
      destruct Hwf as (_ & HH & _).
      assert (0 <= height self) by (rewrite HH; apply Z.div_pos; lia).
      lia. }
  destruct (checkbox self); cbn -[init_vertical_plot plot].
  - rewrite Hlen. destruct (odd_height self); cbn; split; reflexivity.
  - rewrite init_vertical_plot_run. cbn -[plot cleared_panel].
    rewrite Hlen. destruct (odd_height self); cbn -[cleared_panel];
      split; reflexivity.
Qed.

(** *** What no handler changes *)

Lemma onclick_fixed event self :
  fixed_parts (exec (onclick event) self) = fixed_parts self /\
  checkbox (exec (onclick event) self) = checkbox self /\
  ax1 (exec (onclick event) self) = ax1 self.
Proof.
  unfold onclick. destruct (in_ax1 event); [|repeat split].
  unfold exec, bind, lift, reset_crosshair, get, modify, when, ret.
  destruct (int (xdata event)); cbn -[init_vertical_plot plot];
    [|repeat split].
  destruct (int (ydata event)); cbn -[init_vertical_plot plot];
    [|repeat split].
  destruct (getitem_ij _ _ _); cbn -[init_vertical_plot plot];
    [|repeat split].
  destruct (getitem_i _ _); cbn -[init_vertical_plot plot];
    [|repeat split].
  destruct (getitem_j _ _); cbn -[init_vertical_plot plot];
    [|repeat split].
  destruct (checkbox self) eqn:C; cbn -[init_vertical_plot plot].
  - destruct (plot _ _ _ _); cbn; rewrite ?C; repeat split.
  - rewrite init_vertical_plot_run. cbn -[plot].
    destruct (plot _ _ _ _); cbn; rewrite ?C; repeat split.
Qed.

Lemma step_fixed self (ev : ui_event) :
  fixed_parts (step self ev) = fixed_parts self.
Proof.
  destruct ev as [h|b| |event]; unfold step, handle.
  - unfold exec, bind, modify.
    cbn -[onslide].
    destruct (onslide_frame h
                (set_slider (IntSlider.set_value h (slider self)) self))
      as (E1 & E2 & E3 & E4 & _ & _ & E7 & E8 & _).
    unfold exec in *. unfold fixed_parts.
    rewrite E1, E2, E3, E4, E7, E8. reflexivity.
  - reflexivity.
  - unfold exec. rewrite init_vertical_plot_run. reflexivity.
  - apply onclick_fixed.
Qed.

Lemma run_fixed (evs : list ui_event) self :
  fixed_parts (run evs self) = fixed_parts self.
Proof.
  revert self. induction evs as [|ev evs IH]; intros self; cbn.
  - reflexivity.
  - unfold run in IH. rewrite IH. apply step_fixed.
Qed.

Lemma fixed_well_formed self self' :
  fixed_parts self' = fixed_parts self ->
  well_formed self -> well_formed self'.
Proof.
  unfold fixed_parts, well_formed.
  intros [= -> -> -> -> ->]. exact (fun H => H).
Qed.

Lemma fixed_on_pixel self self' event :
  fixed_parts self' = fixed_parts self ->
  on_pixel self' event = on_pixel self event.
Proof.
  unfold fixed_parts, on_pixel. intros [= _ -> _]. reflexivity.
Qed.

Lemma fixed_odd_height self self' :
  fixed_parts self' = fixed_parts self ->
  odd_height self' = odd_height self.
Proof.
  unfold fixed_parts, odd_height. intros [= _ -> _]. reflexivity.
Qed.

Lemma fixed_height self self' :
  fixed_parts self' = fixed_parts self -> height self' = height self.
Proof. unfold fixed_parts. intros [= -> _]. reflexivity. Qed.

Lemma construct_well_formed (a b : ndarray3 V) :
  shape3 b = shape3 a -> well_formed (construct a b).
Proof.
  intros E. unfold construct.
  match goal with |- well_formed (exec (onslide ?h) ?s0) =>
    destruct (onslide_frame h s0) as (E1 & E2 & E3 & E4 & _)
  end.
  unfold well_formed. rewrite E1, E2, E3, E4.
  unfold exec. rewrite init_vertical_plot_run. cbn.
  repeat split; try reflexivity. exact E.
Qed.

Lemma init_returns (a b : ndarray3 V) :
  shape3 b = shape3 a ->
  __init__ a b = (construct_effects (construct a b), Returned (construct a b)).
Proof.
  intros E. unfold __init__.
  replace (shape_eqb (shape3 b) (shape3 a)) with true; [reflexivity|].
  symmetry. apply shape_eqb_eq. exact E.
Qed.

Lemma construct_profile_panel (a b : ndarray3 V) :
  ax2 (construct a b) = cleared_panel (Z.of_nat (dim2 a) / 2) new_axes.
Proof.
  unfold construct.
  match goal with |- ax2 (exec (onslide ?h) ?s0) = _ =>
    destruct (onslide_frame h s0) as (_ & _ & _ & _ & _ & E & _)
  end.
  rewrite E. unfold exec. rewrite init_vertical_plot_run. reflexivity.
Qed.

Lemma construct_checkbox (a b : ndarray3 V) :
  checkbox (construct a b) = true.
Proof.
  unfold construct.
  match goal with |- checkbox (exec (onslide ?h) ?s0) = _ =>
    destruct (onslide_frame h s0) as (_ & _ & _ & _ & E & _)
  end.
  rewrite E. unfold exec. rewrite init_vertical_plot_run. reflexivity.
Qed.

(** *** Invariants of a session *)

Lemma cleared_panel_plain (H : Z) (ax : Axes V) :
  plain_panel ax -> plain_panel (cleared_panel H ax).
Proof.
  unfold plain_panel, cleared_panel. cbn.
  destruct (lines ax); cbn; [exact (fun H => H) | repeat split].
Qed.

Lemma onclick_plain event self :
  plain_panel (ax2 self) -> plain_panel (ax2 (exec (onclick event) self)).
Proof.
  intros Hp. unfold onclick. destruct (in_ax1 event); [|exact Hp].
  unfold exec, bind, lift, reset_crosshair, get, modify, when, ret.
  destruct (int (xdata event)); cbn -[init_vertical_plot plot];
    [|exact Hp].
  destruct (int (ydata event)); cbn -[init_vertical_plot plot];
    [|exact Hp].
  destruct (getitem_ij _ _ _); cbn -[init_vertical_plot plot];
    [|exact Hp].
  destruct (getitem_i _ _); cbn -[init_vertical_plot plot];
    [|exact Hp].
  destruct (getitem_j _ _); cbn -[init_vertical_plot plot];
    [|exact Hp].
  destruct (checkbox self) eqn:C; cbn -[init_vertical_plot plot].
  - unfold plot. destruct (Nat.eqb _ _); cbn; exact Hp.
  - rewrite init_vertical_plot_run. cbn -[plot cleared_panel].
    pose proof (cleared_panel_plain (height self) Hp) as Hc.
    unfold plot. destruct (Nat.eqb _ _); cbn -[cleared_panel]; exact Hc.
Qed.

Lemma step_plain self (ev : ui_event) :
  plain_panel (ax2 self) -> plain_panel (ax2 (step self ev)).
Proof.
  intros Hp. destruct ev as [h|b| |event]; unfold step, handle.
  - unfold exec, bind, modify. cbn -[onslide].
    destruct (onslide_frame h
                (set_slider (IntSlider.set_value h (slider self)) self))
      as (_ & _ & _ & _ & _ & E & _).
    unfold exec in E. rewrite E. exact Hp.
  - exact Hp.
  - unfold exec. rewrite init_vertical_plot_run. cbn -[cleared_panel].
    apply cleared_panel_plain, Hp.
  - apply onclick_plain, Hp.
Qed.

Lemma reachable_well_formed self : reachable self -> well_formed self.
Proof.
  induction 1 as [a b E | self ev _ IH].
  - apply construct_well_formed, E.
  - exact (fixed_well_formed (step_fixed self ev) IH).
Qed.

Lemma reachable_plain self : reachable self -> plain_panel (ax2 self).
Proof.
  induction 1 as [a b E | self ev _ IH].
  - rewrite construct_profile_panel. apply cleared_panel_plain.
    repeat split.
  - apply step_plain, IH.
Qed.

Lemma reachable_run (evs : list ui_event) self :
  reachable self -> reachable (run evs self).
Proof.
  revert self. induction evs as [|ev evs IH]; intros self R; cbn.
  - exact R.
  - apply IH, reach_step, R.
Qed.

(** The panel a click on a pixel leaves when profiles are not stacked
    is the same whatever was on it before. *)
Lemma unstacked_panel (H : Z) (ax : Axes V) (l : Line2D V) :
  plain_panel ax ->
  make_legend (set_lines (lines (cleared_panel H ax) ++ [l])
                         (cleared_panel H ax))
  = make_legend (set_lines [l] (cleared_panel H new_axes)).
Proof.
  destruct ax as [ls ims ti xl yl xm ym yt ytl lg].
  unfold plain_panel. cbn. intros (-> & -> & -> & ->).
  unfold cleared_panel, make_legend. cbn.
  destruct ls; reflexivity.
Qed.

(** *** Clicks on pixels of a volume with an odd number of layers *)

Lemma click_panel event self :
  well_formed self -> odd_height self = true ->
  on_pixel self event = true ->
  result (onclick event) self = Returned tt /\
  ax2 (step self (ButtonPress event))
  = let base := if checkbox self then ax2 self
                else cleared_panel (height self) (ax2 self) in
    make_legend (set_lines (lines base ++ [clicked_line self event]) base).
Proof.
  intros W Hodd Hon.
  destruct (@onclick_on_pixel event self W Hon)
    as (rg & az & p & Hpix & Hget & Hres).
  rewrite Hodd in Hres. unfold clicked_line. rewrite Hpix, Hget.
  exact Hres.
Qed.

Lemma clicked_line_label event self :
  on_pixel self event = true ->
  line_label (clicked_line self event) = label_of event.
Proof.
  unfold on_pixel, clicked_line, label_of.
  intros [_ Hon]%andb_prop.
  destruct (pixel event) as [[rg az]|]; [|discriminate].
  destruct (getitem_ij _ _ _); reflexivity.
Qed.

Lemma clicked_line_fixed event self self' :
  fixed_parts self' = fixed_parts self ->
  clicked_line self' event = clicked_line self event.
Proof.
  unfold fixed_parts, clicked_line. intros [= -> -> _]. reflexivity.
Qed.

Lemma step_click_checkbox event self :
  checkbox (step self (ButtonPress event)) = checkbox self.
Proof. apply onclick_fixed. Qed.

(** With stacking, every click adds its line behind the others. *)
Lemma run_clicks_stacked (events : list MouseEvent) self :
  well_formed self -> odd_height self = true -> checkbox self = true ->
  Forall (fun e => on_pixel self e = true) events ->
  lines (ax2 (run (map ButtonPress events) self))
  = (lines (ax2 self) ++ map (clicked_line self) events)%list.
Proof.
  revert self. induction events as [|e es IH]; intros self W Hodd Hc Hall.
  - cbn. rewrite app_nil_r. reflexivity.
  - inversion Hall as [|? ? He Hes]; subst.
    pose proof (step_fixed self (ButtonPress e)) as F.
    destruct (@click_panel e self W Hodd He) as [_ Hp].
    rewrite Hc in Hp. cbn in Hp.
    change (run (map ButtonPress (e :: es)) self)
      with (run (map ButtonPress es) (step self (ButtonPress e))).
    rewrite IH.
    + rewrite Hp. cbn. rewrite <- app_assoc. cbn. f_equal. f_equal.
      apply map_ext. intros e'. apply clicked_line_fixed, F.
    + exact (fixed_well_formed F W).
    + rewrite (fixed_odd_height F). exact Hodd.
    + rewrite step_click_checkbox. exact Hc.
    + apply Forall_forall. intros e' He'.
      rewrite (fixed_on_pixel e' F).
      rewrite Forall_forall in Hes. apply Hes, He'.
Qed.

(** Without stacking, a click leaves its line alone on the panel. *)
Lemma click_unstacked event self :
  well_formed self -> odd_height self = true -> checkbox self = false ->
  plain_panel (ax2 self) -> on_pixel self event = true ->
  ax2 (step self (ButtonPress event))
  = make_legend (set_lines [clicked_line self event]
                           (cleared_panel (height self) new_axes)).
Proof.
  intros W Hodd Hc Hp Hon.
  destruct (@click_panel event self W Hodd Hon) as [_ E].
  rewrite Hc in E. cbn -[cleared_panel] in E. rewrite E.
  apply unstacked_panel, Hp.
Qed.

Lemma run_clicks_fixed (events : list MouseEvent) self :
  fixed_parts (run (map ButtonPress events) self) = fixed_parts self /\
  checkbox (run (map ButtonPress events) self) = checkbox self.
Proof.
  split; [apply run_fixed|].
  revert self. induction events as [|e es IH]; intros self; cbn.
  - reflexivity.
  - unfold run in IH. rewrite IH. apply step_click_checkbox.
Qed.

Lemma run_plain (evs : list ui_event) self :
  plain_panel (ax2 self) -> plain_panel (ax2 (run evs self)).
Proof.
  revert self. induction evs as [|ev evs IH]; intros self Hp; cbn.
  - exact Hp.
  - apply IH, step_plain, Hp.
Qed.

Lemma run_snoc (evs : list ui_event) (ev : ui_event) self :
  run (evs ++ [ev]) self = step (run evs self) ev.
Proof. unfold run. rewrite fold_left_app. reflexivity. Qed.

Lemma index_raises (n : nat) (i : Z) (e : exn) :
  index n i = Raised e -> e = IndexError.
Proof.
  unfold index.
  destruct ((0 <=? i) && (i <? Z.of_nat n)); [discriminate|].
  destruct ((- Z.of_nat n <=? i) && (i <? 0)); [discriminate|].
  intros [= <-]. reflexivity.
Qed.

(** A click in the panel but off the volume moves the cross-hair and
    then fails at the extraction. *)
Lemma onclick_off_pixel event self (x y : Q) :
  in_ax1 event = true -> xdata event = Some x -> ydata event = Some y ->
  on_pixel self event = false ->
  getitem_ij (capon_bf_abs self) (int_of_float y) (int_of_float x)
  = Raised IndexError /\
  onclick event self
  = (set_crosshair (int_of_float y) (int_of_float x) self,
     Raised IndexError).
Proof.
  intros Hin Hx Hy Hoff.
  assert (G : getitem_ij (capon_bf_abs self) (int_of_float y)
                         (int_of_float x) = Raised IndexError).
  { unfold on_pixel, pixel in Hoff. rewrite Hin, Hx, Hy in Hoff.
    cbn in Hoff. unfold getitem_ij.
    destruct (index (dim0 (capon_bf_abs self)) (int_of_float y)) eqn:Ei.
    - destruct (index (dim1 (capon_bf_abs self)) (int_of_float x)) eqn:Ej.
      + discriminate.
      + rewrite (index_raises _ _ Ej). reflexivity.
    - rewrite (index_raises _ _ Ei). reflexivity. }
  split; [exact G|].
  unfold onclick. rewrite Hin, Hx, Hy.
  unfold bind, lift, int, reset_crosshair, get, modify.
  cbn -[getitem_ij]. rewrite G. reflexivity.
Qed.

Lemma reachable_ticks self :
  reachable self ->
  yticklabels (ax3 self) = Some (ytick_lab (height self)) /\
  yticks (ax3 self) = Some (ytick_pos (height self)) /\
  yticklabels (ax4 self) = Some (ytick_lab (height self)) /\
  yticks (ax4 self) = Some (ytick_pos (height self)).
Proof.
  induction 1 as [a b E | self ev _ IH].
  - unfold construct.
    match goal with |- context [exec (onslide ?h) ?s0] =>
      destruct (onslide_frame h s0) as (E1 & _ & _ & _ & _ & _ & E3 & E4 & _)
    end.
    rewrite E1, E3, E4. unfold exec. rewrite init_vertical_plot_run.
    cbn. repeat split.
  - pose proof (step_fixed self ev) as F. unfold fixed_parts in F.
    injection F as -> _ _ _ _ -> -> -> ->. exact IH.
Qed.

(** *** Labels tell pixels apart *)

Lemma profile_label_inj (rg az rg' az' : Z) :
  profile_label rg az = profile_label rg' az' -> rg = rg' /\ az = az'.
Proof.
  unfold profile_label. cbn. intros [= E].
  apply split_at_semicolon in E; try apply format_03_chars.
  destruct E as [E1 E2]. cbn in E2. injection E2 as E2.
  split; apply format_03_inj; assumption.
Qed.

Lemma label_of_inj (e e' : MouseEvent) :
  label_of e = label_of e' -> pixel e = pixel e'.
Proof.
  unfold label_of.
  destruct (pixel e) as [[rg az]|], (pixel e') as [[rg' az']|];
    try reflexivity; try (unfold profile_label; cbn; discriminate).
  intros [-> ->]%profile_label_inj. reflexivity.
Qed.

Lemma labels_NoDup (events : list MouseEvent) :
  NoDup (map label_of events) <-> NoDup (map pixel events).
Proof.
  induction events as [|e es IH]; cbn.
  - split; constructor.
  - split; intros Hnd; inversion Hnd as [|? ? Hnotin Hrest]; subst;
      constructor; try (apply IH; assumption).
    + intros Hin. apply Hnotin. apply in_map_iff in Hin as (e' & E & He').
      apply in_map_iff. exists e'. split; [|exact He'].
      unfold label_of. rewrite E. reflexivity.
    + intros Hin. apply Hnotin. apply in_map_iff in Hin as (e' & E & He').
      apply in_map_iff. exists e'. split; [|exact He'].
      apply label_of_inj, E.
Qed.

End Explorer.
End ExplorerFacts.

(* ===================================================================== *)
(** ** Properties of the input viewer *)
(* ===================================================================== *)

Module DataViewerSpec.
Import Py Np Mpl DataViewer Session PyFacts DataViewerFacts.

(** C2. For three label sequences of one length and every slider value
    [h] in the slider's range [[1, len(slc_list) - 1]], [onslide] titles
    the amplitude panel with the base name of [slc_list[h]] and the phase
    and wavenumber panels with the base names of [phase_list[h - 1]] and
    [kz_list[h - 1]]. *)
Theorem onslide_resolves_labels (V : Type) (self : DataViewer.t V) (h : Z) :
  List.length (phase_list self) = List.length (slc_list self) ->
  List.length (kz_list self) = List.length (slc_list self) ->
  in_slider_range (make_slider (slc_list self)) h ->
  exists a p k,
    nth_error (slc_list self) (Z.to_nat h) = Some a /\
    nth_error (phase_list self) (Z.to_nat (h - 1)) = Some p /\
    nth_error (kz_list self) (Z.to_nat (h - 1)) = Some k /\
    titles (exec (onslide h) self) =
      ("SLC intensity: " ++ basename a,
       "phase: " ++ basename p,
       "wavenumber: " ++ basename k)%string.
Proof.
  intros Hp Hk Hh. apply onslide_titles; [exact Hh | lia | lia].
Qed.

Lemma onslide_resolves_labels_witness :
  List.length (phase_list demo_viewer) = List.length (slc_list demo_viewer) /\
  List.length (kz_list demo_viewer) = List.length (slc_list demo_viewer) /\
  in_slider_range (make_slider (slc_list demo_viewer)) 2 /\
  exists a p k,
    nth_error (slc_list demo_viewer) 2 = Some a /\
    nth_error (phase_list demo_viewer) 1 = Some p /\
    nth_error (kz_list demo_viewer) 1 = Some k /\
    titles (exec (onslide 2) demo_viewer) =
      ("SLC intensity: " ++ basename a,
       "phase: " ++ basename p,
       "wavenumber: " ++ basename k)%string.
Proof.
  assert (R : in_slider_range (make_slider (slc_list demo_viewer)) 2)
    by (vm_compute; split; discriminate).
  split; [reflexivity|]. split; [reflexivity|]. split; [exact R|].
  exact (@onslide_resolves_labels Z demo_viewer 2 eq_refl eq_refl R).
Defined.

End DataViewerSpec.

(* ===================================================================== *)
(** ** Properties of the volume explorer *)
(* ===================================================================== *)

Module TomographyplotSpec.
Import Py Np Mpl Tomographyplot Session PyFacts ExplorerFacts.

(** C1. When the two volumes differ in shape, [__init__] raises the
    mismatch error having made and shown nothing: no widget, no figure,
    no object. *)
Theorem init_rejects_shape_mismatch (V : Type)
    (capon_bf_abs caponnorm : ndarray3 V) :
  shape3 caponnorm <> shape3 capon_bf_abs ->
  __init__ capon_bf_abs caponnorm
  = ([], Raised (RuntimeError "mismatch of input arrays")).
Proof.
  intros Hne. unfold __init__.
  destruct (shape_eqb (shape3 caponnorm) (shape3 capon_bf_abs)) eqn:E.
  - apply shape_eqb_eq in E. contradiction.
  - reflexivity.
Qed.

Lemma init_rejects_shape_mismatch_witness :
  shape3 (volume 10 10 9) <> shape3 (volume 10 10 8) /\
  __init__ (volume 10 10 8) (volume 10 10 9)
  = ([], Raised (RuntimeError "mismatch of input arrays")).
Proof.
  assert (N : shape3 (volume 10 10 9) <> shape3 (volume 10 10 8))
    by (cbn; discriminate).
  split; [exact N|].
  exact (@init_rejects_shape_mismatch Z (volume 10 10 8) (volume 10 10 9) N).
Defined.

(** C9. A click that is not in the horizontal-slice panel changes
    nothing: the handler returns with the object exactly as it was
    (cross-hair, profile lines, range and azimuth panels included). *)
Theorem onclick_elsewhere_is_noop (V : Type) (self : t V)
    (event : MouseEvent) :
  inaxes event <> Some Ax1 ->
  onclick event self = (self, Returned tt).
Proof.
  intros Hout. apply onclick_outside. unfold in_ax1.
  destruct (inaxes event) as [[| | |]|]; try reflexivity.
  contradiction.
Qed.

Lemma onclick_elsewhere_is_noop_witness :
  inaxes click_elsewhere <> Some Ax1 /\
  onclick click_elsewhere odd_explorer = (odd_explorer, Returned tt).
Proof.
  assert (N : inaxes click_elsewhere <> Some Ax1) by (cbn; discriminate).
  split; [exact N|].
  exact (@onclick_elsewhere_is_noop Z odd_explorer click_elsewhere N).
Defined.

(** C7, as the code has it. The clear action ([init_vertical_plot], which
    the clear button calls) returns normally from any state and leaves the
    profile panel without lines, titled and labelled as at the start; its
    y-limits are [[-H, H]] whenever [H] is not zero, and in every session
    lines, title, labels and y-limits are those the panel had when
    [__init__] returned. *)
Theorem clear_restores_profile_panel (V : Type) (self : t V) :
  result (@init_vertical_plot V) self = Returned tt /\
  lines (ax2 (step self ClearClicked)) = [] /\
  title (ax2 (step self ClearClicked)) = "vertical point profiles"%string /\
  xlabel (ax2 (step self ClearClicked)) = "reflectivity"%string /\
  ylabel (ax2 (step self ClearClicked)) = "height [m]"%string /\
  (height self <> 0 ->
   ylim (ax2 (step self ClearClicked))
   = (inject_Z (- height self), inject_Z (height self))) /\
  forall (capon_bf_abs caponnorm : ndarray3 V) (evs : list ui_event),
    profile_settings
      (ax2 (step (run evs (construct capon_bf_abs caponnorm)) ClearClicked))
    = profile_settings (ax2 (construct capon_bf_abs caponnorm)).
Proof.
  assert (Hclear : forall s : t V,
             ax2 (step s ClearClicked) = cleared_panel (height s) (ax2 s)).
  { intros s. unfold step, handle, exec. rewrite init_vertical_plot_run.
    reflexivity. }
  split; [unfold result; rewrite init_vertical_plot_run; reflexivity|].
  rewrite Hclear.
  split; [apply cleared_panel_lines|].
  split; [reflexivity|]. split; [reflexivity|]. split; [reflexivity|].
  split.
  - intros Hne. unfold cleared_panel. cbn [ylim set_ylim].
    apply nonsingular_distinct. lia.
  - intros a b evs. rewrite Hclear, cleared_panel_settings.
    rewrite (fixed_height (run_fixed evs (construct a b))).
    rewrite construct_profile_panel, cleared_panel_settings.
    assert (Hh : height (construct a b) = Z.of_nat (dim2 a) / 2).
    { unfold construct.
      match goal with |- height (exec (onslide ?h) ?s0) = _ =>
        destruct (onslide_frame h s0) as (E & _)
      end.
      rewrite E. unfold exec. rewrite init_vertical_plot_run. reflexivity. }
    rewrite Hh. reflexivity.
Qed.

Lemma clear_restores_profile_panel_witness :
  height odd_explorer <> 0 /\
  ylim (ax2 (step odd_explorer ClearClicked)) = (inject_Z (-1), inject_Z 1).
Proof.
  assert (N : height odd_explorer <> 0) by (cbn; discriminate).
  split; [exact N|].
  destruct (@clear_restores_profile_panel Z odd_explorer)
    as (_ & _ & _ & _ & _ & Hy & _).
  exact (Hy N).
Defined.

(** C7 as stated fails: over a volume with a single height layer
    ([H = 0]) the clear action asks for the y-limits [(-0, 0)], which
    cannot be drawn and are widened to [(-0.05, 0.05)]; the panel does not
    get the limits [[-H, H]]. *)
Lemma clear_on_single_layer_volume_widens_limits :
  reachable flat_explorer /\
  dim2 (capon_bf_abs flat_explorer) = 1%nat /\
  height flat_explorer = 0 /\
  ylim (ax2 (step flat_explorer ClearClicked)) = (- (1 # 20), 1 # 20)%Q /\
  ylim (ax2 (step flat_explorer ClearClicked))
  <> (inject_Z (- height flat_explorer), inject_Z (height flat_explorer)).
Proof.
  split; [apply reach_construct; reflexivity|].
  split; [reflexivity|]. split; [reflexivity|]. split; [reflexivity|].
  cbn. discriminate.
Qed.

(** C10. In an explorer over volumes with an even number of height
    layers, the slider's minimum [h = -H] makes [onslide] ask for the
    layer [H - h = 2H = shape[2]], which numpy refuses: the handler
    raises [IndexError] and shows nothing.  Every value of the slider's
    range can be shown exactly when the number of layers is odd. *)
Theorem slider_minimum_out_of_bounds_when_even (V : Type) (self : t V) :
  reachable self ->
  IntSlider.min (slider self) = - height self /\
  (odd_height self = false ->
     slice_index self (IntSlider.min (slider self))
     = Z.of_nat (dim2 (caponnorm self)) /\
     slice_index self (IntSlider.min (slider self)) = 2 * height self /\
     onslide (IntSlider.min (slider self)) self = (self, Raised IndexError)) /\
  ((forall h, IntSlider.min (slider self) <= h <= IntSlider.max (slider self) ->
              index_safe self h = true)
   <-> odd_height self = true).
Proof.
  intros R. pose proof (reachable_well_formed R) as W.
  destruct W as (Hs & HH & Hmin & Hmax).
  assert (W : well_formed self) by (repeat split; assumption).
  assert (Hd : dim2 (caponnorm self) = dim2 (capon_bf_abs self))
    by (unfold dim2; rewrite Hs; reflexivity).
  assert (H0 : 0 <= height self) by (rewrite HH; apply Z.div_pos; lia).
  assert (Heven : odd_height self = false ->
            slice_index self (IntSlider.min (slider self))
            = Z.of_nat (dim2 (caponnorm self)) /\
            slice_index self (IntSlider.min (slider self)) = 2 * height self /\
            onslide (IntSlider.min (slider self)) self
            = (self, Raised IndexError)).
  { intros Hev. pose proof (even_height_layers W Hev) as HL.
    unfold slice_index. rewrite Hmin, Hd.
    split; [lia|]. split; [lia|].
    apply onslide_index_error, getitem_k_beyond. rewrite Hd. lia. }
  split; [exact Hmin|].
  split; [exact Heven|].
  split.
  - intros Hsafe. destruct (odd_height self) eqn:Hodd; [reflexivity|].
    destruct (Heven eq_refl) as (_ & _ & Hraise).
    specialize (Hsafe (IntSlider.min (slider self)) ltac:(lia)).
    unfold index_safe, slice_index in Hsafe.
    unfold onslide, bind, get, lift in Hraise.
    destruct (getitem_k (caponnorm self)
                (height self - IntSlider.min (slider self))) eqn:G.
    + rewrite getitem_k_beyond in G; [discriminate|].
      pose proof (even_height_layers W Hodd). rewrite Hd. lia.
    + discriminate.
  - intros Hodd h Hh. pose proof (odd_height_layers W Hodd) as HL.
    unfold index_safe, slice_index.
    rewrite getitem_k_front; [reflexivity|]. rewrite Hd. lia.
Qed.

Lemma slider_minimum_out_of_bounds_when_even_witness :
  reachable even_explorer /\
  odd_height even_explorer = false /\
  IntSlider.min (slider even_explorer) = -1 /\
  slice_index even_explorer (-1) = 2 /\
  onslide (-1) even_explorer = (even_explorer, Raised IndexError).
Proof.
  assert (R : reachable even_explorer)
    by (apply reach_construct; reflexivity).
  split; [exact R|]. split; [reflexivity|]. split; [reflexivity|].
  destruct (@slider_minimum_out_of_bounds_when_even Z even_explorer R)
    as (_ & Hev & _).
  destruct (Hev eq_refl) as (_ & Hidx & Hraise).
  split; [exact Hidx | exact Hraise].
Defined.

(** C3, as the code has it. In every explorer and for every slider value
    [h] in [[-H, H]], with [H = shape[2] // 2], [onslide] reads the height
    index [H - h], which lies in [[0, 2H]] ([h = H] gives 0 and [h = -H]
    gives [2H]); when the number of height layers is odd, or [h] is above
    the slider's minimum, that layer exists and is the slice shown on the
    first panel. *)
Theorem onslide_selects_slice (V : Type) (self : t V) (h : Z) :
  reachable self ->
  IntSlider.min (slider self) <= h <= IntSlider.max (slider self) ->
  IntSlider.min (slider self) = - height self /\
  IntSlider.max (slider self) = height self /\
  height self = Z.of_nat (dim2 (caponnorm self)) / 2 /\
  0 <= slice_index self h <= 2 * height self /\
  slice_index self (height self) = 0 /\
  slice_index self (- height self) = 2 * height self /\
  (forall m,
     getitem_k (caponnorm self) (slice_index self h) = Returned m ->
     shown (ax1 (exec (onslide h) self)) = Some (Raw m)) /\
  (odd_height self = true \/ IntSlider.min (slider self) < h ->
   getitem_k (caponnorm self) (slice_index self h)
   = Returned (layer (caponnorm self) (Z.to_nat (height self - h))) /\
   shown (ax1 (exec (onslide h) self))
   = Some (Raw (layer (caponnorm self) (Z.to_nat (height self - h))))).
Proof.
  intros R Hh. pose proof (reachable_well_formed R) as W.
  destruct W as (Hs & HH & Hmin & Hmax).
  assert (W : well_formed self) by (repeat split; assumption).
  assert (Hd : dim2 (caponnorm self) = dim2 (capon_bf_abs self))
    by (unfold dim2; rewrite Hs; reflexivity).
  unfold slice_index.
  split; [exact Hmin|]. split; [exact Hmax|].
  split; [rewrite Hd; exact HH|].
  split; [lia|]. split; [lia|]. split; [lia|].
  split; [intros m; apply onslide_shows|].
  intros Hcase.
  assert (Hin : 0 <= height self - h < Z.of_nat (dim2 (caponnorm self))).
  { rewrite Hd. destruct (odd_height self) eqn:Hodd.
    - pose proof (odd_height_layers W Hodd). lia.
    - pose proof (even_height_layers W Hodd).
      destruct Hcase as [Hc|Hc]; [discriminate | lia]. }
  split.
  - apply getitem_k_front, Hin.
  - apply onslide_shows, getitem_k_front, Hin.
Qed.

Lemma onslide_selects_slice_witness :
  reachable odd_explorer /\
  IntSlider.min (slider odd_explorer) <= -1 <= IntSlider.max (slider odd_explorer) /\
  odd_height odd_explorer = true /\
  slice_index odd_explorer (-1) = 2 /\
  shown (ax1 (exec (onslide (-1)) odd_explorer))
  = Some (Raw (layer (caponnorm odd_explorer) 2)).
Proof.
  assert (R : reachable odd_explorer)
    by (apply reach_construct; reflexivity).
  assert (B : IntSlider.min (slider odd_explorer) <= -1
              <= IntSlider.max (slider odd_explorer))
    by (vm_compute; split; discriminate).
  split; [exact R|]. split; [exact B|]. split; [reflexivity|].
  split; [reflexivity|].
  destruct (@onslide_selects_slice Z odd_explorer (-1) R B)
    as (_ & _ & _ & _ & _ & _ & _ & Hshown).
  destruct (Hshown (or_introl eq_refl)) as [_ E]. exact E.
Defined.

(** C3 as stated fails: in the explorer of a volume with two height
    layers ([H = 1]) the slider value [h = -1] lies in [[-H, H]], the
    index read is [H - h = 2], and the handler raises [IndexError]
    leaving the object as it was; no slice is selected. *)
Lemma onslide_at_minimum_of_even_volume_raises :
  reachable even_explorer /\
  dim2 (caponnorm even_explorer) = 2%nat /\
  height even_explorer = 1 /\
  IntSlider.min (slider even_explorer) <= -1
    <= IntSlider.max (slider even_explorer) /\
  slice_index even_explorer (-1) = 2 /\
  getitem_k (caponnorm even_explorer) (slice_index even_explorer (-1))
  = Raised IndexError /\
  onslide (-1) even_explorer = (even_explorer, Raised IndexError).
Proof.
  split; [apply reach_construct; reflexivity|].
  split; [reflexivity|]. split; [reflexivity|].
  split; [vm_compute; split; discriminate|].
  split; [reflexivity|]. split; reflexivity.
Qed.

(** C4, as the code has it. For every click in the horizontal-slice
    panel at [(x, y)], [onclick] takes [rg = int(x)] and [az = int(y)],
    the integers next to [x] and [y] on the side of zero, and moves the
    cross-hair to exactly [(rg, az)].  When [az] and [rg] are indices
    into the first two axes of the volume, the profile
    [capon_bf_abs[az, rg, :]] is extracted and has [shape[2]] samples
    (and with an odd number of layers it is drawn, reversed, as the newest
    line of the profile panel). *)
Theorem onclick_truncates_and_extracts (V : Type) (self : t V)
    (event : MouseEvent) (x y : Q) :
  reachable self ->
  inaxes event = Some Ax1 -> xdata event = Some x -> ydata event = Some y ->
  ((0 <= x -> inject_Z (int_of_float x) <= x < inject_Z (int_of_float x) + 1) /\
   (x <= 0 -> inject_Z (int_of_float x) - 1 < x <= inject_Z (int_of_float x)))%Q /\
  ((0 <= y -> inject_Z (int_of_float y) <= y < inject_Z (int_of_float y) + 1) /\
   (y <= 0 -> inject_Z (int_of_float y) - 1 < y <= inject_Z (int_of_float y)))%Q /\
  pixel event = Some (int_of_float x, int_of_float y) /\
  lver (exec (onclick event) self) = int_of_float x /\
  lhor (exec (onclick event) self) = int_of_float y /\
  (on_pixel self event = true ->
     exists i j,
       index (dim0 (capon_bf_abs self)) (int_of_float y) = Returned i /\
       index (dim1 (capon_bf_abs self)) (int_of_float x) = Returned j /\
       getitem_ij (capon_bf_abs self) (int_of_float y) (int_of_float x)
       = Returned (map (at3 (capon_bf_abs self) i j)
                       (seq 0 (dim2 (capon_bf_abs self)))) /\
       List.length (map (at3 (capon_bf_abs self) i j)
                        (seq 0 (dim2 (capon_bf_abs self))))
       = dim2 (capon_bf_abs self) /\
       (odd_height self = true ->
          result (onclick event) self = Returned tt /\
          exists older,
            lines (ax2 (exec (onclick event) self))
            = (older ++ [profile_line (height self)
                           (map (at3 (capon_bf_abs self) i j)
                                (seq 0 (dim2 (capon_bf_abs self))))
                           (int_of_float x) (int_of_float y)])%list)).
Proof.
  intros R Hax Hx Hy.
  assert (Hin : in_ax1 event = true) by (unfold in_ax1; rewrite Hax; reflexivity).
  pose proof (reachable_well_formed R) as W.
  split; [apply int_of_float_truncates|].
  split; [apply int_of_float_truncates|].
  assert (Hpix : pixel event = Some (int_of_float x, int_of_float y))
    by (unfold pixel; rewrite Hx, Hy; reflexivity).
  split; [exact Hpix|].
  destruct (@onclick_crosshair V event self x y Hin Hx Hy) as [Hv Hh].
  split; [exact Hv|]. split; [exact Hh|].
  intros Hon.
  destruct (@on_pixel_subsets V event self W Hon)
    as (x' & y' & i & j & _ & Hx' & Hy' & Ei & Ej & Ep & _).
  rewrite Hx in Hx'. rewrite Hy in Hy'.
  injection Hx' as <-. injection Hy' as <-.
  exists i, j. split; [exact Ei|]. split; [exact Ej|]. split; [exact Ep|].
  split; [rewrite length_map, length_seq; reflexivity|].
  intros Hodd.
  destruct (@onclick_on_pixel V event self W Hon)
    as (rg & az & p & Hpix' & Hget & Hres).
  rewrite Hpix in Hpix'. injection Hpix' as <- <-.
  rewrite Ep in Hget. injection Hget as <-.
  rewrite Hodd in Hres. destruct Hres as [Hr Hp].
  split; [exact Hr|].
  rewrite Hp. eexists. reflexivity.
Qed.

Lemma onclick_truncates_and_extracts_witness :
  reachable odd_explorer /\
  on_pixel odd_explorer (click (6 # 5) (3 # 10)) = true /\
  pixel (click (6 # 5) (3 # 10)) = Some (1, 0) /\
  lver (exec (onclick (click (6 # 5) (3 # 10))) odd_explorer) = 1 /\
  lhor (exec (onclick (click (6 # 5) (3 # 10))) odd_explorer) = 0.
Proof.
  assert (R : reachable odd_explorer)
    by (apply reach_construct; reflexivity).
  split; [exact R|]. split; [reflexivity|].
  destruct (@onclick_truncates_and_extracts Z odd_explorer
              (click (6 # 5) (3 # 10)) (6 # 5) (3 # 10)
              R eq_refl eq_refl eq_refl)
    as (_ & _ & Hpix & Hv & Hh & _).
  split; [exact Hpix|]. split; [exact Hv | exact Hh].
Defined.

(** C4 as stated fails: a click in the horizontal-slice panel at
    [(5.5, 0.5)] over a volume two pixels wide is taken to the pixel
    [(5, 0)]; the cross-hair moves there, the extraction
    [capon_bf_abs[0, 5, :]] raises [IndexError], and no profile is
    drawn. *)
Lemma onclick_beyond_image_raises :
  reachable odd_explorer /\
  inaxes (click (11 # 2) (1 # 2)) = Some Ax1 /\
  pixel (click (11 # 2) (1 # 2)) = Some (5, 0) /\
  dim1 (capon_bf_abs odd_explorer) = 2%nat /\
  getitem_ij (capon_bf_abs odd_explorer) 0 5 = Raised IndexError /\
  result (onclick (click (11 # 2) (1 # 2))) odd_explorer
  = Raised IndexError /\
  lver (exec (onclick (click (11 # 2) (1 # 2))) odd_explorer) = 5 /\
  lines (ax2 (exec (onclick (click (11 # 2) (1 # 2))) odd_explorer)) = [].
Proof.
  split; [apply reach_construct; reflexivity|].
  repeat split; reflexivity.
Qed.

(** C5, as the code has it. In an explorer over volumes with an odd
    number of height layers whose profile panel is empty, take any [N]
    clicks that each land on a pixel of the volume.  With stacking
    enabled the panel ends with exactly [N] lines, the i-th labelled with
    the pixel of the i-th click, so the labels are distinct exactly when
    the clicked pixels are; with stacking disabled the panel holds
    exactly one line after each click. *)
Theorem clicks_accumulate_profile_lines (V : Type) (self : t V)
    (events : list MouseEvent) :
  reachable self -> odd_height self = true ->
  lines (ax2 self) = [] ->
  Forall (fun e => on_pixel self e = true) events ->
  (checkbox self = true ->
     List.length (lines (ax2 (run (map ButtonPress events) self)))
     = List.length events /\
     map (@line_label V) (lines (ax2 (run (map ButtonPress events) self)))
     = map label_of events /\
     (NoDup (map (@line_label V)
                 (lines (ax2 (run (map ButtonPress events) self))))
      <-> NoDup (map pixel events))) /\
  (checkbox self = false ->
     forall n, (0 < n <= List.length events)%nat ->
       List.length
         (lines (ax2 (run (map ButtonPress (firstn n events)) self)))
       = 1%nat).
Proof.
  intros R Hodd Hempty Hall. pose proof (reachable_well_formed R) as W.
  split.
  - intros Hc.
    pose proof (run_clicks_stacked W Hodd Hc Hall) as E.
    rewrite Hempty in E. cbn in E.
    assert (L : map (@line_label V)
                  (lines (ax2 (run (map ButtonPress events) self)))
                = map label_of events).
    { rewrite E, map_map. apply map_ext_in. intros e He.
      apply clicked_line_label. rewrite Forall_forall in Hall.
      apply Hall, He. }
    split; [rewrite E, length_map; reflexivity|].
    split; [exact L|].
    rewrite L. apply labels_NoDup.
  - intros Hc n [Hn0 Hn].
    destruct (firstn n events) as [|e0 es0] eqn:Ef.
    + apply (f_equal (@List.length _)) in Ef.
      rewrite length_firstn in Ef. cbn in Ef. lia.
    + assert (Hall' : Forall (fun e => on_pixel self e = true) (e0 :: es0)).
      { rewrite <- Ef. apply Forall_forall. intros e He.
        rewrite Forall_forall in Hall. apply Hall.
        apply (In_nth _ _ e) in He as (k & Hk & <-).
        rewrite length_firstn in Hk.
        rewrite nth_firstn.
        destruct (Nat.ltb_spec k n); [|lia].
        apply nth_In. lia. }
      destruct (exists_last (l := e0 :: es0) ltac:(discriminate))
        as (front & e & Efe).
      rewrite Efe in Hall' |- *.
      rewrite map_app. cbn [map]. rewrite run_snoc.
      destruct (run_clicks_fixed front self) as [F C].
      apply Forall_app in Hall' as [_ He]. inversion He as [|? ? Hon _]; subst.
      rewrite click_unstacked.
      * reflexivity.
      * exact (fixed_well_formed F W).
      * rewrite (fixed_odd_height F). exact Hodd.
      * rewrite C. exact Hc.
      * apply run_plain, reachable_plain, R.
      * rewrite (fixed_on_pixel e F). exact Hon.
Qed.

Lemma clicks_accumulate_profile_lines_witness :
  reachable odd_explorer /\
  lines (ax2 odd_explorer) = [] /\
  Forall (fun e => on_pixel odd_explorer e = true)
         [click (1 # 5) (3 # 10); click (6 # 5) (3 # 10)] /\
  checkbox odd_explorer = true /\
  List.length
    (lines (ax2 (run (map ButtonPress
                          [click (1 # 5) (3 # 10); click (6 # 5) (3 # 10)])
                     odd_explorer)))
  = 2%nat.
Proof.
  assert (R : reachable odd_explorer)
    by (apply reach_construct; reflexivity).
  assert (A : Forall (fun e => on_pixel odd_explorer e = true)
                [click (1 # 5) (3 # 10); click (6 # 5) (3 # 10)])
    by (repeat constructor).
  split; [exact R|]. split; [reflexivity|]. split; [exact A|].
  split; [reflexivity|].
  destruct (@clicks_accumulate_profile_lines Z odd_explorer
              [click (1 # 5) (3 # 10); click (6 # 5) (3 # 10)]
              R eq_refl eq_refl A) as [Hstack _].
  destruct (Hstack eq_refl) as [Hlen _]. exact Hlen.
Defined.

(** C5 as stated fails in three ways.  With stacking enabled and an empty
    panel, two clicks on one pixel leave two lines with one and the same
    label; a click in the panel beyond the image leaves no line; and over
    a volume of two height layers a click on a pixel leaves no line,
    stacking or not, because the two samples cannot be plotted against
    the three heights [-1, 0, 1]. *)
Lemma clicks_do_not_always_add_distinct_lines :
  (checkbox odd_explorer = true /\
   lines (ax2 odd_explorer) = [] /\
   map (@line_label Z)
       (lines (ax2 (run (map ButtonPress
                             [click (1 # 5) (3 # 10); click (1 # 5) (3 # 10)])
                        odd_explorer)))
   = ["rg: 000; az: 000"; "rg: 000; az: 000"]%string /\
   ~ NoDup (map (@line_label Z)
                (lines (ax2 (run (map ButtonPress
                                      [click (1 # 5) (3 # 10);
                                       click (1 # 5) (3 # 10)])
                                 odd_explorer))))) /\
  (inaxes (click (11 # 2) (1 # 2)) = Some Ax1 /\
   lines (ax2 (run (map ButtonPress [click (11 # 2) (1 # 2)]) odd_explorer))
   = []) /\
  (on_pixel even_explorer (click (1 # 2) (1 # 2)) = true /\
   result (onclick (click (1 # 2) (1 # 2))) even_explorer
   = Raised ValueError /\
   lines (ax2 (run (map ButtonPress [click (1 # 2) (1 # 2)]) even_explorer))
   = [] /\
   checkbox even_explorer_unstacked = false /\
   lines (ax2 (run (map ButtonPress [click (1 # 2) (1 # 2)])
                   even_explorer_unstacked))
   = []).
Proof.
  split; [|split].
  - split; [reflexivity|]. split; [reflexivity|].
    assert (E : map (@line_label Z)
                  (lines (ax2 (run (map ButtonPress
                                        [click (1 # 5) (3 # 10);
                                         click (1 # 5) (3 # 10)])
                                   odd_explorer)))
                = ["rg: 000; az: 000"; "rg: 000; az: 000"]%string)
      by reflexivity.
    split; [exact E|].
    rewrite E. intros Hnd. inversion Hnd as [|? ? Hnotin _]; subst.
    apply Hnotin. left. reflexivity.
  - split; reflexivity.
  - repeat split; reflexivity.
Qed.

(** C6, as the code has it. In an explorer over volumes with an odd
    number of height layers and with stacking disabled, clicking twice
    on one pixel of the volume leaves exactly one line on the profile
    panel after the first click and after the second, and the panel
    after the second click equals the panel after the first. *)
Theorem click_twice_unstacked_is_idempotent (V : Type) (self : t V)
    (event : MouseEvent) :
  reachable self -> odd_height self = true ->
  checkbox self = false -> on_pixel self event = true ->
  List.length (lines (ax2 (step self (ButtonPress event)))) = 1%nat /\
  List.length
    (lines (ax2 (step (step self (ButtonPress event)) (ButtonPress event))))
  = 1%nat /\
  ax2 (step (step self (ButtonPress event)) (ButtonPress event))
  = ax2 (step self (ButtonPress event)).
Proof.
  intros R Hodd Hc Hon. pose proof (reachable_well_formed R) as W.
  pose proof (step_fixed self (ButtonPress event)) as F.
  pose proof (@click_unstacked V event self W Hodd Hc (reachable_plain R) Hon) as E1.
  assert (E2 : ax2 (step (step self (ButtonPress event)) (ButtonPress event))
               = make_legend
                   (set_lines [clicked_line self event]
                              (cleared_panel (height self) new_axes))).
  { rewrite click_unstacked.
    - rewrite (clicked_line_fixed event F), (fixed_height F). reflexivity.
    - exact (fixed_well_formed F W).
    - rewrite (fixed_odd_height F). exact Hodd.
    - rewrite step_click_checkbox. exact Hc.
    - apply reachable_plain, reach_step, R.
    - rewrite (fixed_on_pixel event F). exact Hon. }
  rewrite E2, E1. repeat split; reflexivity.
Qed.

Lemma click_twice_unstacked_is_idempotent_witness :
  reachable odd_explorer_unstacked /\
  odd_height odd_explorer_unstacked = true /\
  checkbox odd_explorer_unstacked = false /\
  on_pixel odd_explorer_unstacked (click (6 # 5) (3 # 10)) = true /\
  ax2 (step (step odd_explorer_unstacked (ButtonPress (click (6 # 5) (3 # 10))))
            (ButtonPress (click (6 # 5) (3 # 10))))
  = ax2 (step odd_explorer_unstacked (ButtonPress (click (6 # 5) (3 # 10)))).
Proof.
  assert (R : reachable odd_explorer_unstacked)
    by (apply reach_step, reach_construct; reflexivity).
  split; [exact R|]. split; [reflexivity|]. split; [reflexivity|].
  split; [reflexivity|].
  destruct (@click_twice_unstacked_is_idempotent Z odd_explorer_unstacked
              (click (6 # 5) (3 # 10)) R eq_refl eq_refl eq_refl)
    as (_ & _ & E).
  exact E.
Defined.

(** C6 as stated fails: over a volume of two height layers, with
    stacking disabled, a click on the pixel [(0, 0)] clears the panel and
    then fails to plot two samples against the three heights
    [-1, 0, 1]; the panel holds no line after the first click and none
    after the second. *)
Lemma click_twice_unstacked_even_volume_leaves_no_line :
  reachable even_explorer_unstacked /\
  checkbox even_explorer_unstacked = false /\
  on_pixel even_explorer_unstacked (click (1 # 2) (1 # 2)) = true /\
  dim2 (capon_bf_abs even_explorer_unstacked) = 2%nat /\
  range (- height even_explorer_unstacked)
        (height even_explorer_unstacked + 1) = [-1; 0; 1] /\
  result (onclick (click (1 # 2) (1 # 2))) even_explorer_unstacked
  = Raised ValueError /\
  List.length
    (lines (ax2 (step even_explorer_unstacked
                      (ButtonPress (click (1 # 2) (1 # 2)))))) = 0%nat /\
  List.length
    (lines (ax2 (step (step even_explorer_unstacked
                            (ButtonPress (click (1 # 2) (1 # 2))))
                      (ButtonPress (click (1 # 2) (1 # 2)))))) = 0%nat.
Proof.
  split; [apply reach_step, reach_construct; reflexivity|].
  repeat split; reflexivity.
Qed.

(** What lines 151-153 give every explorer, from construction on: the
    range-slice and azimuth-slice panels carry the five integer labels
    [[-H, floor(-H/2), 0, floor(H/2), H]] at the positions
    [[0, H/2, H, 3H/2, 2H]].  The positions are the multiples [0..4] of
    [H/2] for every [H]; the labels mirror each other about zero exactly
    when [H] is even. *)
Theorem tick_scheme (V : Type) (self : t V) :
  reachable self ->
  height self = Z.of_nat (dim2 (capon_bf_abs self)) / 2 /\
  yticklabels (ax3 self) = Some (ytick_lab (height self)) /\
  yticklabels (ax4 self) = Some (ytick_lab (height self)) /\
  yticks (ax3 self) = Some (ytick_pos (height self)) /\
  yticks (ax4 self) = Some (ytick_pos (height self)) /\
  ytick_lab (height self)
  = [- height self; - ((height self + 1) / 2); 0; height self / 2;
     height self] /\
  Forall2 Qeq (ytick_pos (height self))
    (map (fun i => (inject_Z i * (inject_Z (height self) / inject_Z 2))%Q)
         [0; 1; 2; 3; 4]) /\
  (symmetric (ytick_lab (height self)) <-> Z.even (height self) = true).
Proof.
  intros R. destruct (reachable_well_formed R) as (_ & HH & _).
  destruct (reachable_ticks R) as (L3 & P3 & L4 & P4).
  split; [exact HH|].
  split; [exact L3|]. split; [exact L4|].
  split; [exact P3|]. split; [exact P4|].
  generalize (height self). intros H.
  split; [|split].
  - unfold ytick_lab. repeat f_equal.
    Z.div_mod_to_equations. lia.
  - unfold ytick_pos. cbn [map].
    repeat (apply Forall2_cons; [rewrite ?inject_Z_mult; field|]).
    apply Forall2_nil.
  - unfold symmetric, ytick_lab. cbn. split.
    + intros [= _ E _].
      destruct (Z.even H) eqn:Ev; [reflexivity|].
      rewrite <- Z.negb_odd in Ev. apply negb_false_iff in Ev.
      apply Z.odd_spec in Ev as [k ->].
      revert E. Z.div_mod_to_equations. lia.
    + intros Ev. apply Z.even_spec in Ev as [k ->].
      repeat f_equal; Z.div_mod_to_equations; lia.
Qed.

(** C8. The code breaks the claim for odd [H]: for a volume of eleven
    height layers ([H = 5]) both panels get the labels [-5, -3, 0, 2, 5]
    at the positions [0, 5/2, 5, 15/2, 10].  The second label is the
    floor of [-5/2] where the fourth is the floor of [5/2], so the scheme
    is not the symmetric [-H, -H/2, 0, H/2, H]; and at the tick labelled
    [-3] the same panels' cursor read-out, [int(y - self.height)], shows
    the height [-2], the mirror of the [2] it shows at the fourth tick. *)
Lemma tick_labels_asymmetric_for_odd_half_height :
  reachable tall_explorer /\
  height tall_explorer = 5 /\
  yticklabels (ax3 tall_explorer) = Some [-5; -3; 0; 2; 5] /\
  yticklabels (ax4 tall_explorer) = Some [-5; -3; 0; 2; 5] /\
  yticks (ax3 tall_explorer)
  = Some [0 # 1; 5 # 2; 5 # 1; 15 # 2; 10 # 1]%Q /\
  ~ symmetric [-5; -3; 0; 2; 5] /\
  ~ (inject_Z (-3) == (5 # 2) - inject_Z 5)%Q /\
  ~ (inject_Z 2 == (15 # 2) - inject_Z 5)%Q /\
  height_readout (height tall_explorer) (5 # 2) = -2 /\
  height_readout (height tall_explorer) (15 # 2) = 2.
Proof.
  split; [apply reach_construct; reflexivity|].
  split; [reflexivity|]. split; [reflexivity|]. split; [reflexivity|].
  split; [reflexivity|].
  split; [|split; [|split; [|split]]].
  - unfold symmetric. cbn. discriminate.
  - unfold Qeq. cbn. discriminate.
  - unfold Qeq. cbn. discriminate.
  - reflexivity.
  - reflexivity.
Qed.

End TomographyplotSpec.


(* ===================================================================== *)
(** ** Further facts: paths, indices and the input viewer's frames *)
(* ===================================================================== *)

Module MoreFacts.
Import Py Np Mpl Session Observations PyFacts.

Lemma getitem_raises {A} (l : list A) (i : Z) (e : exn) :
  getitem l i = Raised e -> e = IndexError.
Proof.
  unfold getitem, index.
  destruct ((0 <=? i) && (i <? Z.of_nat (List.length l))).
  - destruct (nth_error l (Z.to_nat i)); [discriminate|].
    intros [= <-]. reflexivity.
  - destruct ((- Z.of_nat (List.length l) <=? i) && (i <? 0)).
    + destruct (nth_error l _); [discriminate|].
      intros [= <-]. reflexivity.
    + intros [= <-]. reflexivity.
Qed.

Lemma index_completes_iff (n : nat) (i : Z) :
  completes (index n i) = true <-> - Z.of_nat n <= i < Z.of_nat n.
Proof.
  unfold index.
  destruct (Z.leb_spec 0 i); destruct (Z.ltb_spec i (Z.of_nat n)); cbn;
    try (split; [intros _; lia | reflexivity]);
    destruct (Z.leb_spec (- Z.of_nat n) i); destruct (Z.ltb_spec i 0); cbn;
    split; try discriminate; try reflexivity; lia.
Qed.

(** What [index] returns: the index itself, or the one counted from the
    end of the axis. *)
Lemma index_value (n : nat) (i : Z) (k : nat) :
  index n i = Returned k ->
  k = Z.to_nat (if i <? 0 then Z.of_nat n + i else i) /\ (k < n)%nat.
Proof.
  unfold index. intros E.
  destruct (Z.leb_spec 0 i); destruct (Z.ltb_spec i (Z.of_nat n)); cbn in E;
    try (destruct (Z.leb_spec (- Z.of_nat n) i); destruct (Z.ltb_spec i 0);
         cbn in E; try discriminate);
    injection E as <-; destruct (Z.ltb_spec i 0); lia.
Qed.

(** *** [basename] *)

Lemma rfind_no_slash (n : string) (pos : Z) :
  no_slash n = true -> rfind_slash_from pos n = -1.
Proof.
  revert pos. induction n as [|c n IH]; intros pos; cbn; [reflexivity|].
  intros [Hc Hn]%andb_prop. rewrite (IH (pos + 1) Hn). cbn.
  apply negb_true_iff in Hc. rewrite Hc. reflexivity.
Qed.

Lemma rfind_last_slash (d n : string) (pos : Z) :
  0 <= pos -> no_slash n = true ->
  rfind_slash_from pos (d ++ String "/" n) = pos + Z.of_nat (String.length d).
Proof.
  revert pos. induction d as [|c d IH]; intros pos Hpos Hn; cbn [append].
  - cbn [rfind_slash_from String.length].
    rewrite (@rfind_no_slash n (pos + 1) Hn). cbn. lia.
  - cbn [rfind_slash_from String.length]. rewrite IH by (assumption || lia).
    destruct (Z.leb_spec 0 (pos + 1 + Z.of_nat (String.length d))); lia.
Qed.

Lemma substring_whole (s : string) : substring 0 (String.length s) s = s.
Proof. induction s as [|c s IH]; cbn; [reflexivity | rewrite IH; reflexivity]. Qed.

Lemma substring_tail (a b : string) :
  substring (String.length a) (String.length b) (a ++ b) = b.
Proof.
  induction a as [|c a IH]; cbn.
  - apply substring_whole.
  - exact IH.
Qed.

Lemma length_append (a b : string) :
  String.length (a ++ b) = (String.length a + String.length b)%nat.
Proof. induction a as [|c a IH]; cbn; [reflexivity | rewrite IH; reflexivity]. Qed.

(** The base name of [dir/name] is [name]. *)
Lemma basename_of_path (d n : string) :
  no_slash n = true -> basename (d ++ String "/" n) = n.
Proof.
  intros Hn. unfold basename, rfind_slash.
  rewrite rfind_last_slash by (assumption || lia).
  replace (Z.to_nat (0 + Z.of_nat (String.length d) + 1))
    with (String.length (d ++ "/")) by (rewrite length_append; cbn; lia).
  replace (d ++ String "/" n)%string with ((d ++ "/") ++ n)%string.
  - rewrite (length_append (d ++ "/") n).
    replace (String.length (d ++ "/") + String.length n
             - String.length (d ++ "/"))%nat
      with (String.length n) by lia.
    apply substring_tail.
  - induction d as [|c d IH]; cbn; [reflexivity | rewrite IH; reflexivity].
Qed.

(** The base name of a bare file name is the name. *)
Lemma basename_of_name (n : string) : no_slash n = true -> basename n = n.
Proof.
  intros Hn. unfold basename, rfind_slash.
  rewrite (@rfind_no_slash n 0 Hn).
  cbn. rewrite Nat.sub_0_r. apply substring_whole.
Qed.

Section Arrays.
Variable V : Type.

Lemma getitem_k_value (a : ndarray3 V) (k : Z) (m : ndarray2 V) :
  getitem_k a k = Returned m ->
  m = layer a (Z.to_nat (if k <? 0 then Z.of_nat (dim2 a) + k else k)).
Proof.
  unfold getitem_k.
  destruct (index (dim2 a) k) as [k'|] eqn:E; [|discriminate].
  intros [= <-]. destruct (index_value _ _ E) as [-> _]. reflexivity.
Qed.

Lemma getitem_k_raises (a : ndarray3 V) (k : Z) (e : exn) :
  getitem_k a k = Raised e -> e = IndexError.
Proof.
  unfold getitem_k.
  destruct (index (dim2 a) k) eqn:E; [discriminate|].
  intros [= <-]. unfold index in E.
  destruct ((0 <=? k) && (k <? Z.of_nat (dim2 a))); [discriminate|].
  destruct ((- Z.of_nat (dim2 a) <=? k) && (k <? 0)); [discriminate|].
  injection E as <-. reflexivity.
Qed.

End Arrays.
End MoreFacts.


(* ===================================================================== *)
(** ** Further properties of the input viewer *)
(* ===================================================================== *)

Module DataViewerProperties.
Import Py Np Mpl DataViewer Session Observations PyFacts MoreFacts.

Section Viewer.
Variable V : Type.
Implicit Types (self : DataViewer.t V) (h : Z).

(** The handler once its three labels have been read. *)
Lemma onslide_run self h (a p k : string) :
  getitem (slc_list self) h = Returned a ->
  getitem (phase_list self) (h - 1) = Returned p ->
  getitem (kz_list self) (h - 1) = Returned k ->
  onslide h self =
    let s1 :=
      with_ax3 (set_title ("wavenumber: " ++ basename k))
        (with_ax2 (set_title ("phase: " ++ basename p))
           (with_ax1 (set_title ("SLC intensity: " ++ basename a)) self)) in
    match getitem_k (slc_stack self) h with
    | Raised e => (s1, Raised e)
    | Returned fa =>
        match percentile (LogAmplitude fa) 2 98 with
        | Raised e => (s1, Raised e)
        | Returned pp =>
            let s2 := with_ax1 (imshow (amplitude_image fa pp)) s1 in
            match getitem_k (phase_stack self) h with
            | Raised e => (s2, Raised e)
            | Returned fp =>
                let s3 := with_ax2 (imshow (magnitude_image fp)) s2 in
                match getitem_k (kz_stack self) h with
                | Raised e => (s3, Raised e)
                | Returned fk =>
                    (with_ax3 (imshow (magnitude_image fk)) s3, Returned tt)
                end
            end
        end
    end.
Proof.
  intros Ga Gp Gk. unfold onslide, bind, get, lift, modify.
  rewrite Ga, Gp, Gk. cbn -[percentile].
  destruct (getitem_k (slc_stack self) h) as [fa|]; cbn -[percentile];
    [|reflexivity].
  destruct (percentile (LogAmplitude fa) 2 98); cbn; [|reflexivity].
  destruct (getitem_k (phase_stack self) h); cbn; [|reflexivity].
  destruct (getitem_k (kz_stack self) h); cbn; reflexivity.
Qed.

Lemma labels_resolve_inv self h :
  labels_resolve self h = true ->
  exists a p k,
    getitem (slc_list self) h = Returned a /\
    getitem (phase_list self) (h - 1) = Returned p /\
    getitem (kz_list self) (h - 1) = Returned k.
Proof.
  unfold labels_resolve. intros [[Ha Hp]%andb_prop Hk]%andb_prop.
  destruct (getitem (slc_list self) h) as [a|]; [|discriminate].
  destruct (getitem (phase_list self) (h - 1)) as [p|]; [|discriminate].
  destruct (getitem (kz_list self) (h - 1)) as [k|]; [|discriminate].
  exists a, p, k. repeat split.
Qed.

Lemma frame_resolves (a : ndarray3 V) h :
  0 <= h -> completes (getitem_k a h) = true ->
  getitem_k a h = Returned (layer a (Z.to_nat h)).
Proof.
  intros Hh Hc. destruct (getitem_k a h) as [m|] eqn:E; [|discriminate].
  rewrite (getitem_k_value _ _ E).
  destruct (Z.ltb_spec h 0); [lia | reflexivity].
Qed.

(** The handler leaves the label sequences and the stacks alone. *)
Lemma onslide_keeps_inputs self h :
  slc_list (exec (onslide h) self) = slc_list self /\
  phase_list (exec (onslide h) self) = phase_list self /\
  kz_list (exec (onslide h) self) = kz_list self /\
  slc_stack (exec (onslide h) self) = slc_stack self /\
  phase_stack (exec (onslide h) self) = phase_stack self /\
  kz_stack (exec (onslide h) self) = kz_stack self.
Proof.
  unfold onslide, exec, bind, get, lift, modify.
  destruct (getitem (slc_list self) h); cbn; [|repeat split].
  destruct (getitem (phase_list self) (h - 1)); cbn; [|repeat split].
  destruct (getitem (kz_list self) (h - 1)); cbn -[percentile];
    [|repeat split].
  destruct (getitem_k (slc_stack self) h) as [fa|]; cbn -[percentile];
    [|repeat split].
  destruct (percentile (LogAmplitude fa) 2 98); cbn; [|repeat split].
  destruct (getitem_k (phase_stack self) h); cbn; [|repeat split].
  destruct (getitem_k (kz_stack self) h); cbn; repeat split.
Qed.

Lemma percentile_of_layer (a : ndarray3 V) (k : nat) :
  (0 <? dim0 a * dim1 a)%nat = true ->
  percentile (LogAmplitude (layer a k)) 2 98 = Returned (stretch (layer a k)).
Proof.
  intros Hp. unfold percentile, layer, stretch. cbn [picture_array shape2].
  destruct (Nat.eqb_spec (dim0 a * dim1 a) 0) as [E|_]; [|reflexivity].
  rewrite E in Hp. discriminate.
Qed.

Lemma percentile_of_empty_layer (a : ndarray3 V) (k : nat) :
  (dim0 a * dim1 a)%nat = 0%nat ->
  percentile (LogAmplitude (layer a k)) 2 98 = Raised IndexError.
Proof.
  intros E. unfold percentile, layer. cbn [picture_array shape2].
  rewrite E. reflexivity.
Qed.

Lemma onslide_frames self h :
  0 <= h ->
  labels_resolve self h = true -> frames_resolve self h = true ->
  frames_have_pixels self = true ->
  result (onslide h) self = Returned tt /\
  images (ax1 (exec (onslide h) self))
  = (images (ax1 self)
     ++ [amplitude_image (layer (slc_stack self) (Z.to_nat h))
                         (stretch (layer (slc_stack self) (Z.to_nat h)))])%list /\
  images (ax2 (exec (onslide h) self))
  = (images (ax2 self)
     ++ [magnitude_image (layer (phase_stack self) (Z.to_nat h))])%list /\
  images (ax3 (exec (onslide h) self))
  = (images (ax3 self)
     ++ [magnitude_image (layer (kz_stack self) (Z.to_nat h))])%list.
Proof.
  intros Hh Hl Hf Hpx.
  destruct (labels_resolve_inv _ _ Hl) as (a & p & k & Ga & Gp & Gk).
  unfold frames_resolve in Hf.
  apply andb_prop in Hf as [[Fa Fp]%andb_prop Fk].
  unfold frames_have_pixels in Hpx.
  apply andb_prop in Hpx as [[Pa _]%andb_prop _].
  unfold result, exec. rewrite (onslide_run _ _ Ga Gp Gk).
  rewrite (frame_resolves _ Hh Fa), (percentile_of_layer _ _ Pa),
    (frame_resolves _ Hh Fp), (frame_resolves _ Hh Fk).
  repeat split.
Qed.

Lemma pixels_kept self h :
  frames_have_pixels (exec (onslide h) self) = frames_have_pixels self.
Proof.
  destruct (onslide_keeps_inputs self h) as (_ & _ & _ & E4 & E5 & E6).
  unfold frames_have_pixels. rewrite E4, E5, E6. reflexivity.
Qed.

Lemma resolve_kept self h h' :
  labels_resolve (exec (onslide h) self) h' = labels_resolve self h' /\
  frames_resolve (exec (onslide h) self) h' = frames_resolve self h'.
Proof.
  destruct (onslide_keeps_inputs self h) as (E1 & E2 & E3 & E4 & E5 & E6).
  unfold labels_resolve, frames_resolve.
  rewrite E1, E2, E3, E4, E5, E6. split; reflexivity.
Qed.

End Viewer.

(** X1. When the three labels and the three frames of a slider value
    [h >= 0] can be read and the frames have at least one pixel,
    [onslide] returns normally, every panel gets exactly one more image
    layer, and the new layers are frame [h] of each stack: the
    log-amplitude of the SLC frame in gray between its 2nd and 98th
    percentile, and the magnitudes of the phase and wavenumber frames. *)
Theorem onslide_shows_frame (V : Type) (self : DataViewer.t V) (h : Z) :
  0 <= h ->
  labels_resolve self h = true -> frames_resolve self h = true ->
  frames_have_pixels self = true ->
  result (onslide h) self = Returned tt /\
  images (ax1 (exec (onslide h) self))
  = (images (ax1 self)
     ++ [amplitude_image (layer (slc_stack self) (Z.to_nat h))
                         (stretch (layer (slc_stack self) (Z.to_nat h)))])%list /\
  images (ax2 (exec (onslide h) self))
  = (images (ax2 self)
     ++ [magnitude_image (layer (phase_stack self) (Z.to_nat h))])%list /\
  images (ax3 (exec (onslide h) self))
  = (images (ax3 self)
     ++ [magnitude_image (layer (kz_stack self) (Z.to_nat h))])%list /\
  shown (ax1 (exec (onslide h) self))
  = Some (LogAmplitude (layer (slc_stack self) (Z.to_nat h))) /\
  shown (ax2 (exec (onslide h) self))
  = Some (Magnitude (layer (phase_stack self) (Z.to_nat h))) /\
  shown (ax3 (exec (onslide h) self))
  = Some (Magnitude (layer (kz_stack self) (Z.to_nat h))) /\
  layer_counts (exec (onslide h) self)
  = (S (List.length (images (ax1 self))),
     S (List.length (images (ax2 self))),
     S (List.length (images (ax3 self)))).
Proof.
  intros Hh Hl Hf Hpx.
  destruct (onslide_frames self Hh Hl Hf Hpx) as (Hr & I1 & I2 & I3).
  split; [exact Hr|]. split; [exact I1|]. split; [exact I2|].
  split; [exact I3|].
  unfold shown, layer_counts. rewrite I1, I2, I3.
  rewrite !ExplorerFacts.rev_snoc, !length_app. cbn.
  rewrite !Nat.add_1_r. repeat split.
Qed.

Lemma onslide_shows_frame_witness :
  labels_resolve demo_viewer 2 = true /\
  frames_resolve demo_viewer 2 = true /\
  frames_have_pixels demo_viewer = true /\
  shown (ax2 (exec (onslide 2) demo_viewer))
  = Some (Magnitude (layer (phase_stack demo_viewer) 2)).
Proof.
  split; [reflexivity|]. split; [reflexivity|]. split; [reflexivity|].
  destruct (@onslide_shows_frame Z demo_viewer 2 ltac:(discriminate)
              eq_refl eq_refl eq_refl) as (_ & _ & _ & _ & _ & E & _).
  exact E.
Defined.

(** X2. When one of the three labels of [h] cannot be read, [onslide]
    raises [IndexError] and leaves the viewer exactly as it was: no title
    and no image has changed, because all three labels are read before
    the first title is set. *)
Theorem onslide_unresolved_label_changes_nothing (V : Type)
    (self : DataViewer.t V) (h : Z) :
  labels_resolve self h = false ->
  onslide h self = (self, Raised IndexError).
Proof.
  unfold labels_resolve, onslide, bind, get, lift. intros Hl.
  destruct (getitem (slc_list self) h) as [a|e] eqn:Ga.
  - destruct (getitem (phase_list self) (h - 1)) as [p|e] eqn:Gp.
    + destruct (getitem (kz_list self) (h - 1)) as [k|e] eqn:Gk.
      * discriminate.
      * rewrite (getitem_raises _ _ Gk). reflexivity.
    + rewrite (getitem_raises _ _ Gp). reflexivity.
  - rewrite (getitem_raises _ _ Ga). reflexivity.
Qed.

Lemma onslide_unresolved_label_changes_nothing_witness :
  labels_resolve demo_viewer 3 = false /\
  onslide 3 demo_viewer = (demo_viewer, Raised IndexError).
Proof.
  split; [reflexivity|].
  exact (@onslide_unresolved_label_changes_nothing Z demo_viewer 3 eq_refl).
Defined.

(** X3. When the labels of [h] can be read but the SLC stack has no frame
    [h], [onslide] raises [IndexError] after it has retitled the three
    panels: the titles name the new files while no panel has got a new
    image. *)
Theorem onslide_shallow_stack_retitles_only (V : Type)
    (self : DataViewer.t V) (h : Z) (a p k : string) :
  getitem (slc_list self) h = Returned a ->
  getitem (phase_list self) (h - 1) = Returned p ->
  getitem (kz_list self) (h - 1) = Returned k ->
  completes (getitem_k (slc_stack self) h) = false ->
  result (onslide h) self = Raised IndexError /\
  titles (exec (onslide h) self)
  = ("SLC intensity: " ++ basename a, "phase: " ++ basename p,
     "wavenumber: " ++ basename k)%string /\
  images (ax1 (exec (onslide h) self)) = images (ax1 self) /\
  images (ax2 (exec (onslide h) self)) = images (ax2 self) /\
  images (ax3 (exec (onslide h) self)) = images (ax3 self).
Proof.
  intros Ga Gp Gk Hf. unfold result, exec.
  rewrite (onslide_run _ _ Ga Gp Gk).
  destruct (getitem_k (slc_stack self) h) as [m|e] eqn:E; [discriminate|].
  rewrite (getitem_k_raises _ _ E). cbn. repeat split.
Qed.

Lemma onslide_shallow_stack_retitles_only_witness :
  completes (getitem_k (slc_stack shallow_viewer) 2) = false /\
  titles (exec (onslide 2) shallow_viewer)
  = ("SLC intensity: s2", "phase: p1", "wavenumber: k1")%string.
Proof.
  split; [reflexivity|].
  destruct (@onslide_shallow_stack_retitles_only Z shallow_viewer
              2 "a/s2"%string "b/p1"%string "c/k1"%string
              eq_refl eq_refl eq_refl eq_refl) as (_ & E & _).
  exact E.
Defined.

(** X4. The input viewer never removes an image: when the frames of the
    stacks have at least one pixel, a run of [N] slider values whose
    labels and frames can all be read leaves each of the three panels with
    [N] image layers more than before. *)
Theorem slides_accumulate_layers (V : Type) (self : DataViewer.t V)
    (hs : list Z) :
  frames_have_pixels self = true ->
  Forall (fun h => 0 <= h /\ labels_resolve self h = true /\
                   frames_resolve self h = true) hs ->
  layer_counts (slides hs self)
  = (List.length (images (ax1 self)) + List.length hs,
     List.length (images (ax2 self)) + List.length hs,
     List.length (images (ax3 self)) + List.length hs)%nat.
Proof.
  revert self. induction hs as [|h hs IH]; intros self Hpx Hall.
  - cbn. unfold layer_counts. rewrite !Nat.add_0_r. reflexivity.
  - inversion Hall as [|? ? (Hh & Hl & Hf) Hrest]; subst.
    change (slides (h :: hs) self) with (slides hs (exec (onslide h) self)).
    rewrite IH.
    + destruct (onslide_frames self Hh Hl Hf Hpx) as (_ & I1 & I2 & I3).
      rewrite I1, I2, I3, !length_app. cbn [List.length].
      f_equal; [f_equal|]; lia.
    + rewrite pixels_kept. exact Hpx.
    + apply Forall_forall. intros h' Hin.
      rewrite Forall_forall in Hrest. specialize (Hrest h' Hin).
      destruct (resolve_kept self h h') as [-> ->]. exact Hrest.
Qed.

Lemma slides_accumulate_layers_witness :
  frames_have_pixels demo_viewer = true /\
  Forall (fun h => 0 <= h /\ labels_resolve demo_viewer h = true /\
                   frames_resolve demo_viewer h = true) [2; 1; 2] /\
  layer_counts (slides [2; 1; 2] demo_viewer)
  = (List.length (images (ax1 demo_viewer)) + 3,
     List.length (images (ax2 demo_viewer)) + 3,
     List.length (images (ax3 demo_viewer)) + 3)%nat.
Proof.
  assert (A : Forall (fun h => 0 <= h /\ labels_resolve demo_viewer h = true /\
                               frames_resolve demo_viewer h = true) [2; 1; 2]).
  { repeat constructor; discriminate. }
  split; [reflexivity|]. split; [exact A|].
  exact (@slides_accumulate_layers Z demo_viewer [2; 1; 2] eq_refl A).
Defined.

(** X5. Only file names are displayed: when the three labels of [h] are
    paths [dir/name] whose [name] has no separator, [onslide] titles the
    panels with the three names alone, whether or not the frames can then
    be read. *)
Theorem titles_show_file_names (V : Type) (self : DataViewer.t V) (h : Z)
    (d1 n1 d2 n2 d3 n3 : string) :
  getitem (slc_list self) h = Returned (d1 ++ "/" ++ n1)%string ->
  getitem (phase_list self) (h - 1) = Returned (d2 ++ "/" ++ n2)%string ->
  getitem (kz_list self) (h - 1) = Returned (d3 ++ "/" ++ n3)%string ->
  no_slash n1 = true -> no_slash n2 = true -> no_slash n3 = true ->
  titles (exec (onslide h) self)
  = ("SLC intensity: " ++ n1, "phase: " ++ n2, "wavenumber: " ++ n3)%string.
Proof.
  intros Ga Gp Gk H1 H2 H3. unfold exec.
  rewrite (onslide_run _ _ Ga Gp Gk).
  change (d1 ++ "/" ++ n1)%string with (d1 ++ String "/" n1)%string.
  change (d2 ++ "/" ++ n2)%string with (d2 ++ String "/" n2)%string.
  change (d3 ++ "/" ++ n3)%string with (d3 ++ String "/" n3)%string.
  rewrite !basename_of_path by assumption.
  destruct (getitem_k (slc_stack self) h) as [fa|]; cbn -[percentile];
    [|reflexivity].
  destruct (percentile (LogAmplitude fa) 2 98); cbn; [|reflexivity].
  destruct (getitem_k (phase_stack self) h); cbn; [|reflexivity].
  destruct (getitem_k (kz_stack self) h); cbn; reflexivity.
Qed.

Lemma titles_show_file_names_witness :
  getitem (slc_list demo_viewer) 2
  = Returned ("/data/slc" ++ "/" ++ "scene_2.tif")%string /\
  no_slash "scene_2.tif" = true /\
  titles (exec (onslide 2) demo_viewer)
  = ("SLC intensity: scene_2.tif", "phase: phase_1.tif",
     "wavenumber: kz_1.tif")%string.
Proof.
  split; [reflexivity|]. split; [reflexivity|].
  exact (@titles_show_file_names Z demo_viewer 2
           "/data/slc" "scene_2.tif" "/data/pha" "phase_1.tif"
           "/data/kz" "kz_1.tif"
           eq_refl eq_refl eq_refl eq_refl eq_refl eq_refl).
Defined.

(** X21. When the labels and the SLC frame of [h >= 0] can be read but
    the frame has no pixel, [onslide] raises [IndexError] at the
    percentiles of line 85, after it has retitled the three panels and
    before any image is drawn. *)
Theorem onslide_empty_frame_retitles_only (V : Type)
    (self : DataViewer.t V) (h : Z) (a p k : string) :
  0 <= h ->
  getitem (slc_list self) h = Returned a ->
  getitem (phase_list self) (h - 1) = Returned p ->
  getitem (kz_list self) (h - 1) = Returned k ->
  completes (getitem_k (slc_stack self) h) = true ->
  (dim0 (slc_stack self) * dim1 (slc_stack self))%nat = 0%nat ->
  result (onslide h) self = Raised IndexError /\
  titles (exec (onslide h) self)
  = ("SLC intensity: " ++ basename a, "phase: " ++ basename p,
     "wavenumber: " ++ basename k)%string /\
  images (ax1 (exec (onslide h) self)) = images (ax1 self) /\
  images (ax2 (exec (onslide h) self)) = images (ax2 self) /\
  images (ax3 (exec (onslide h) self)) = images (ax3 self).
Proof.
  intros Hh Ga Gp Gk Hf He. unfold result, exec.
  rewrite (onslide_run _ _ Ga Gp Gk).
  rewrite (frame_resolves _ Hh Hf), (percentile_of_empty_layer _ _ He).
  cbn. repeat split.
Qed.

Lemma onslide_empty_frame_retitles_only_witness :
  completes (getitem_k (slc_stack empty_viewer) 2) = true /\
  (dim0 (slc_stack empty_viewer) * dim1 (slc_stack empty_viewer))%nat = 0%nat /\
  result (onslide 2) empty_viewer = Raised IndexError /\
  titles (exec (onslide 2) empty_viewer)
  = ("SLC intensity: s2", "phase: p1", "wavenumber: k1")%string.
Proof.
  split; [reflexivity|]. split; [reflexivity|].
  destruct (@onslide_empty_frame_retitles_only Z empty_viewer
              2 "a/s2"%string "b/p1"%string "c/k1"%string
              ltac:(discriminate) eq_refl eq_refl eq_refl eq_refl eq_refl)
    as (R & T & _).
  split; [exact R | exact T].
Defined.

End DataViewerProperties.


(* ===================================================================== *)
(** ** Further facts about the explorer's handlers *)
(* ===================================================================== *)

Module ExplorerMoreFacts.
Import Py Np Mpl Tomographyplot Session Observations.
Import PyFacts MoreFacts ExplorerFacts.

Section Explorer.
Variable V : Type.
Implicit Types (self : t V) (event : MouseEvent) (h : Z).

(** *** The first panel *)

Lemma onslide_tidy_run self h :
  tidy_slice_panel (ax1 self) ->
  onslide h self
  = match getitem_k (caponnorm self) (height self - h) with
    | Returned m => (with_ax1 (slice_panel h m) self, Returned tt)
    | Raised _ => (self, Raised IndexError)
    end.
Proof.
  intros [Hlen Hbars].
  destruct (getitem_k (caponnorm self) (height self - h)) as [m|e] eqn:E.
  - unfold onslide, bind, get, lift, when, modify, ret. rewrite E.
    unfold with_ax1 at 1 2 3 4, slice_panel, slice_image.
    cbn -[Nat.ltb].
    destruct (images (ax1 self)) as [|im [|im' rest]] eqn:I.
    + cbn. unfold attach_colorbar, with_ax1. cbn. rewrite I. cbn.
      reflexivity.
    + inversion Hbars as [|? ? Hbar _]; subst.
      cbn. unfold drop_oldest_image. cbn. rewrite I. cbn.
      destruct (image_colorbar im) as [c|]; [|contradiction].
      cbn. unfold attach_colorbar, with_ax1. cbn. reflexivity.
    + cbn in Hlen. lia.
  - rewrite (getitem_k_raises _ _ E) in E.
    exact (onslide_index_error h self E).
Qed.

Lemma slice_panel_tidy h (m : ndarray2 V) (ax : Axes V) :
  tidy_slice_panel (slice_panel h m ax).
Proof.
  unfold tidy_slice_panel, slice_panel. cbn. split; [lia|].
  constructor; [discriminate | constructor].
Qed.

Lemma onslide_tidy self h :
  tidy_slice_panel (ax1 self) ->
  tidy_slice_panel (ax1 (exec (onslide h) self)).
Proof.
  intros T. unfold exec. rewrite (@onslide_tidy_run self h T).
  destruct (getitem_k (caponnorm self) (height self - h)); cbn.
  - apply slice_panel_tidy.
  - exact T.
Qed.

Lemma step_tidy self (ev : ui_event) :
  tidy_slice_panel (ax1 self) -> tidy_slice_panel (ax1 (step self ev)).
Proof.
  intros T. destruct ev as [h|b| |event]; unfold step, handle.
  - unfold exec, bind, modify. cbn -[onslide].
    apply (@onslide_tidy
             (set_slider (IntSlider.set_value h (slider self)) self) h).
    exact T.
  - exact T.
  - unfold exec. rewrite init_vertical_plot_run. exact T.
  - destruct (onclick_fixed event self) as (_ & _ & E).
    rewrite E. exact T.
Qed.

Lemma construct_slice_panel (a b : ndarray3 V) :
  ax1 (construct a b)
  = match getitem_k b (Z.of_nat (dim2 a) / 2 - 0) with
    | Returned m => slice_panel 0 m new_axes
    | Raised _ => new_axes
    end.
Proof.
  unfold construct, exec. rewrite init_vertical_plot_run.
  rewrite onslide_tidy_run.
  - cbn -[getitem_k Z.div].
    destruct (getitem_k b (Z.of_nat (dim2 a) / 2 - 0)); reflexivity.
  - cbn. split; [cbn; lia | constructor].
Qed.

Lemma reachable_tidy self : reachable self -> tidy_slice_panel (ax1 self).
Proof.
  induction 1 as [a b E | self ev _ IH].
  - rewrite construct_slice_panel.
    destruct (getitem_k b (Z.of_nat (dim2 a) / 2 - 0)).
    + apply slice_panel_tidy.
    + split; [cbn; lia | constructor].
  - apply step_tidy, IH.
Qed.

(** *** Clicks *)

(** The whole effect of a click on a pixel of a volume with an odd number
    of layers. *)
Lemma onclick_success event self :
  well_formed self -> odd_height self = true -> on_pixel self event = true ->
  exists x y i j,
    xdata event = Some x /\ ydata event = Some y /\
    index (dim0 (capon_bf_abs self)) (int_of_float y) = Returned i /\
    index (dim1 (capon_bf_abs self)) (int_of_float x) = Returned j /\
    onclick event self
    = (with_ax4 (azimuth_panel self (int_of_float x) j)
         (with_ax3 (range_panel self (int_of_float y) i)
            (with_ax2
               (fun ax =>
                  let base := if checkbox self then ax
                              else cleared_panel (height self) ax in
                  make_legend
                    (set_lines
                       (lines base ++
                          [profile_line (height self)
                             (map (at3 (capon_bf_abs self) i j)
                                  (seq 0 (dim2 (capon_bf_abs self))))
                             (int_of_float x) (int_of_float y)]) base))
               (set_crosshair (int_of_float y) (int_of_float x) self))),
       Returned tt).
Proof.
  intros Hwf Hodd Hon.
  destruct (@on_pixel_subsets V event self Hwf Hon)
    as (x & y & i & j & Hin & Hx & Hy & Ei & Ej & Ep & _ & _).
  exists x, y, i, j.
  split; [exact Hx|]. split; [exact Hy|]. split; [exact Ei|]. split; [exact Ej|].
  destruct Hwf as (Hs & HH & Hmm).
  assert (Hwf : well_formed self) by (split; [exact Hs | split; assumption]).
  assert (Gi : getitem_i (caponnorm self) (int_of_float y)
               = Returned (row_slice (caponnorm self) i)).
  { unfold getitem_i, dim0. rewrite Hs. fold (dim0 (capon_bf_abs self)).
    rewrite Ei. reflexivity. }
  assert (Gj : getitem_j (caponnorm self) (int_of_float x)
               = Returned (column_slice (caponnorm self) j)).
  { unfold getitem_j, dim1. rewrite Hs. fold (dim1 (capon_bf_abs self)).
    rewrite Ej. reflexivity. }
  unfold onclick. rewrite Hin, Hx, Hy.
  unfold bind, lift, int, reset_crosshair, get, modify, when, ret.
  cbn -[init_vertical_plot plot getitem_ij getitem_i getitem_j].
  rewrite Ep, Gi, Gj.
  cbn -[init_vertical_plot plot].
  assert (Hlen : forall ax : Axes V,
             plot (flipud (map (at3 (capon_bf_abs self) i j)
                               (seq 0 (dim2 (capon_bf_abs self)))))
                  (range (- height self) (height self + 1))
                  (profile_label (int_of_float x) (int_of_float y)) ax
             = Returned
                 (set_lines
                    (lines ax ++
                       [profile_line (height self)
                          (map (at3 (capon_bf_abs self) i j)
                               (seq 0 (dim2 (capon_bf_abs self))))
                          (int_of_float x) (int_of_float y)]) ax)).
  { intros ax. unfold plot, flipud.
    rewrite length_rev, length_map, length_seq, range_length.
    pose proof (odd_height_layers Hwf Hodd) as HL.
    replace (Nat.eqb _ _) with true; [reflexivity|].
    symmetry. apply Nat.eqb_eq. lia. }
  destruct (checkbox self) eqn:C; cbn -[init_vertical_plot plot].
  - rewrite Hlen. reflexivity.
  - rewrite init_vertical_plot_run. cbn -[plot cleared_panel].
    rewrite Hlen. reflexivity.
Qed.

(** A click whose handler does not return normally leaves the first
    panel and the two slice panels as they were. *)
Lemma onclick_failed event self :
  result (onclick event) self <> Returned tt ->
  ax1 (exec (onclick event) self) = ax1 self /\
  ax3 (exec (onclick event) self) = ax3 self /\
  ax4 (exec (onclick event) self) = ax4 self.
Proof.
  unfold onclick, result, exec. destruct (in_ax1 event); [|repeat split].
  unfold bind, lift, reset_crosshair, get, modify, when, ret.
  destruct (int (xdata event)); cbn -[init_vertical_plot plot];
    [|repeat split].
  destruct (int (ydata event)); cbn -[init_vertical_plot plot];
    [|repeat split].
  destruct (getitem_ij _ _ _); cbn -[init_vertical_plot plot];
    [|repeat split].
  destruct (getitem_i _ _); cbn -[init_vertical_plot plot];
    [|repeat split].
  destruct (getitem_j _ _); cbn -[init_vertical_plot plot];
    [|repeat split].
  destruct (checkbox self); cbn -[init_vertical_plot plot].
  - destruct (plot _ _ _ _); cbn; [|repeat split].
    intros N. contradiction N. reflexivity.
  - rewrite init_vertical_plot_run. cbn -[plot].
    destruct (plot _ _ _ _); cbn; [|repeat split].
    intros N. contradiction N. reflexivity.
Qed.

(** *** The legend *)

Lemma cleared_panel_legend (H : Z) (ax : Axes V) :
  legend_matches ax -> legend_matches (cleared_panel H ax).
Proof.
  unfold legend_matches, cleared_panel. cbn.
  destruct (lines ax) eqn:E; cbn; [|reflexivity].
  rewrite E. exact (fun H => H).
Qed.

Lemma plotted_legend (ax : Axes V) (l : Line2D V) :
  legend_matches (make_legend (set_lines (lines ax ++ [l]) ax)).
Proof.
  unfold legend_matches, make_legend. cbn.
  destruct (lines ax); reflexivity.
Qed.

Lemma onclick_legend event self :
  legend_matches (ax2 self) ->
  legend_matches (ax2 (exec (onclick event) self)).
Proof.
  intros Hl. unfold onclick. destruct (in_ax1 event); [|exact Hl].
  unfold exec, bind, lift, reset_crosshair, get, modify, when, ret.
  destruct (int (xdata event)); cbn -[init_vertical_plot plot];
    [|exact Hl].
  destruct (int (ydata event)); cbn -[init_vertical_plot plot];
    [|exact Hl].
  destruct (getitem_ij _ _ _); cbn -[init_vertical_plot plot];
    [|exact Hl].
  destruct (getitem_i _ _); cbn -[init_vertical_plot plot];
    [|exact Hl].
  destruct (getitem_j _ _); cbn -[init_vertical_plot plot];
    [|exact Hl].
  destruct (checkbox self) eqn:C; cbn -[init_vertical_plot plot].
  - unfold plot. destruct (Nat.eqb _ _); cbn; [|exact Hl].
    apply plotted_legend.
  - rewrite init_vertical_plot_run. cbn -[plot cleared_panel].
    pose proof (cleared_panel_legend (height self) Hl) as Hc.
    unfold plot. destruct (Nat.eqb _ _); cbn -[cleared_panel]; [|exact Hc].
    apply plotted_legend.
Qed.

Lemma step_legend self (ev : ui_event) :
  legend_matches (ax2 self) -> legend_matches (ax2 (step self ev)).
Proof.
  intros Hl. destruct ev as [h|b| |event]; unfold step, handle.
  - unfold exec, bind, modify. cbn -[onslide].
    destruct (onslide_frame h
                (set_slider (IntSlider.set_value h (slider self)) self))
      as (_ & _ & _ & _ & _ & E & _).
    unfold exec in E. rewrite E. exact Hl.
  - exact Hl.
  - unfold exec. rewrite init_vertical_plot_run. cbn -[cleared_panel].
    apply cleared_panel_legend, Hl.
  - apply onclick_legend, Hl.
Qed.

Lemma reachable_legend self : reachable self -> legend_matches (ax2 self).
Proof.
  induction 1 as [a b E | self ev _ IH].
  - rewrite construct_profile_panel. reflexivity.
  - apply step_legend, IH.
Qed.

(** *** The cross-hair *)

Lemma step_crosshair self (ev : ui_event) :
  (lhor (step self ev), lver (step self ev))
  = track_crosshair (lhor self, lver self) [ev].
Proof.
  destruct ev as [h|b| |event]; unfold step, handle, track_crosshair;
    cbn [fold_left].
  - unfold exec, bind, modify. cbn -[onslide].
    destruct (onslide_frame h
                (set_slider (IntSlider.set_value h (slider self)) self))
      as (_ & _ & _ & _ & _ & _ & _ & _ & E1 & E2).
    unfold exec in E1, E2. rewrite E1, E2. reflexivity.
  - reflexivity.
  - unfold exec. rewrite init_vertical_plot_run. reflexivity.
  - destruct (in_ax1 event) eqn:Hin.
    + unfold pixel.
      destruct (xdata event) as [x|] eqn:Hx.
      * destruct (ydata event) as [y|] eqn:Hy.
        -- destruct (@onclick_crosshair V event self x y Hin Hx Hy) as [-> ->].
           reflexivity.
        -- unfold exec, onclick. rewrite Hin, Hx, Hy. reflexivity.
      * unfold exec, onclick. rewrite Hin, Hx. reflexivity.
    + unfold exec. rewrite (onclick_outside event self Hin). reflexivity.
Qed.

Lemma run_crosshair (evs : list ui_event) self :
  (lhor (run evs self), lver (run evs self))
  = track_crosshair (lhor self, lver self) evs.
Proof.
  revert self. induction evs as [|ev evs IH]; intros self.
  - reflexivity.
  - change (run (ev :: evs) self) with (run evs (step self ev)).
    rewrite IH, step_crosshair. reflexivity.
Qed.

(** *** Construction *)

Lemma construct_parts (a b : ndarray3 V) :
  height (construct a b) = Z.of_nat (dim2 a) / 2 /\
  capon_bf_abs (construct a b) = a /\
  caponnorm (construct a b) = b /\
  slider (construct a b)
  = {| IntSlider.min := - (Z.of_nat (dim2 a) / 2);
       IntSlider.max := Z.of_nat (dim2 a) / 2;
       IntSlider.step := 10; IntSlider.value := 0 |} /\
  checkbox (construct a b) = true /\
  ax2 (construct a b) = cleared_panel (Z.of_nat (dim2 a) / 2) new_axes /\
  ax3 (construct a b)
  = set_yticks (ytick_lab (Z.of_nat (dim2 a) / 2))
               (ytick_pos (Z.of_nat (dim2 a) / 2))
               (set_xlim 0 (Z.of_nat (dim1 a)) new_axes) /\
  ax4 (construct a b)
  = set_yticks (ytick_lab (Z.of_nat (dim2 a) / 2))
               (ytick_pos (Z.of_nat (dim2 a) / 2))
               (set_xlim 0 (Z.of_nat (dim0 a)) new_axes) /\
  lhor (construct a b) = 0 /\ lver (construct a b) = 0.
Proof.
  unfold construct.
  match goal with |- context [exec (onslide ?h) ?s0] =>
    destruct (onslide_frame h s0)
      as (E1 & E2 & E3 & E4 & E5 & E6 & E7 & E8 & E9 & E10)
  end.
  rewrite E1, E2, E3, E4, E5, E6, E7, E8, E9, E10.
  unfold exec. rewrite init_vertical_plot_run. cbn -[Z.div cleared_panel].
  repeat split.
Qed.

(** *** Sessions of clicks *)

Lemma run_clicks_side_panels (events : list MouseEvent) self :
  well_formed self -> odd_height self = true ->
  Forall (fun e => on_pixel self e = true) events ->
  List.length (images (ax3 (run (map ButtonPress events) self)))
  = (List.length (images (ax3 self)) + List.length events)%nat /\
  List.length (images (ax4 (run (map ButtonPress events) self)))
  = (List.length (images (ax4 self)) + List.length events)%nat.
Proof.
  revert self. induction events as [|e es IH]; intros self W Hodd Hall.
  - cbn. rewrite !Nat.add_0_r. split; reflexivity.
  - inversion Hall as [|? ? He Hes]; subst.
    pose proof (step_fixed self (ButtonPress e)) as F.
    change (run (map ButtonPress (e :: es)) self)
      with (run (map ButtonPress es) (step self (ButtonPress e))).
    destruct (IH (step self (ButtonPress e))) as [E3 E4].
    + exact (fixed_well_formed F W).
    + rewrite (fixed_odd_height F). exact Hodd.
    + apply Forall_forall. intros e' He'.
      rewrite (fixed_on_pixel e' F).
      rewrite Forall_forall in Hes. apply Hes, He'.
    + rewrite E3, E4.
      destruct (@onclick_success e self W Hodd He)
        as (x & y & i & j & _ & _ & _ & _ & Hrun).
      unfold step, handle, exec. rewrite Hrun.
      unfold range_panel, azimuth_panel, imshow. cbn.
      rewrite !length_app. cbn. split; lia.
Qed.

(** Over an even number of layers a click draws nothing. *)
Lemma onclick_even event self :
  well_formed self -> odd_height self = false ->
  ax3 (exec (onclick event) self) = ax3 self /\
  ax4 (exec (onclick event) self) = ax4 self /\
  (lines (ax2 self) = [] -> lines (ax2 (exec (onclick event) self)) = []).
Proof.
  intros W Hev.
  destruct (in_ax1 event) eqn:Hin.
  - destruct (xdata event) as [x|] eqn:Hx.
    + destruct (ydata event) as [y|] eqn:Hy.
      * destruct (on_pixel self event) eqn:Hon.
        -- destruct (@onclick_on_pixel V event self W Hon)
             as (rg & az & p & _ & _ & Hres).
           rewrite Hev in Hres. destruct Hres as [Hr Hp].
           destruct (@onclick_failed event self) as (_ & E3 & E4).
           { rewrite Hr. discriminate. }
           split; [exact E3|]. split; [exact E4|].
           intros Hl. rewrite Hp.
           destruct (checkbox self); [exact Hl | apply cleared_panel_lines].
        -- destruct (@onclick_off_pixel V event self x y Hin Hx Hy Hon)
             as [_ E].
           unfold exec. rewrite E. cbn. repeat split. exact (fun H => H).
      * unfold exec, onclick. rewrite Hin, Hx, Hy. cbn.
        repeat split. exact (fun H => H).
    + unfold exec, onclick. rewrite Hin, Hx. cbn.
      repeat split. exact (fun H => H).
  - unfold exec. rewrite (onclick_outside event self Hin). cbn.
    repeat split. exact (fun H => H).
Qed.

Lemma cleared_twice (H : Z) (ax : Axes V) :
  cleared_panel H (cleared_panel H ax) = cleared_panel H ax.
Proof.
  unfold cleared_panel. cbn.
  destruct (lines ax) eqn:E; cbn; [rewrite E|]; reflexivity.
Qed.

End Explorer.
End ExplorerMoreFacts.


(* ===================================================================== *)
(** ** Further properties of the volume explorer *)
(* ===================================================================== *)

Module ExplorerProperties.
Import Py Np Mpl Tomographyplot Session Observations.
Import PyFacts MoreFacts ExplorerFacts ExplorerMoreFacts.

(** X6. For two volumes of one shape [__init__] returns an explorer, having
    made the slider, the checkbox, the button and the figure: the slider
    ranges over [[-H, H]] in steps of 10 and stands at 0, stacking is
    enabled, the cross-hair is at [(0, 0)], the profile panel is empty,
    and the range and azimuth panels have no image; their x-limits are
    [(0, shape[1])] and [(0, shape[0])] when these dimensions are not
    zero, and the widened [(-0.05, 0.05)] when they are. *)
Theorem init_returns_explorer (V : Type)
    (capon_bf_abs caponnorm : ndarray3 V) :
  shape3 caponnorm = shape3 capon_bf_abs ->
  exists self,
    __init__ capon_bf_abs caponnorm = (construct_effects self, Returned self) /\
    reachable self /\
    slider self
    = {| IntSlider.min := - (Z.of_nat (dim2 capon_bf_abs) / 2);
         IntSlider.max := Z.of_nat (dim2 capon_bf_abs) / 2;
         IntSlider.step := 10; IntSlider.value := 0 |} /\
    checkbox self = true /\
    (lhor self, lver self) = (0, 0) /\
    lines (ax2 self) = [] /\ legend (ax2 self) = None /\
    images (ax3 self) = [] /\ images (ax4 self) = [] /\
    xlim (ax3 self)
    = (if (0 <? dim1 capon_bf_abs)%nat
       then (inject_Z 0, inject_Z (Z.of_nat (dim1 capon_bf_abs)))
       else (- (1 # 20), 1 # 20)%Q) /\
    xlim (ax4 self)
    = (if (0 <? dim0 capon_bf_abs)%nat
       then (inject_Z 0, inject_Z (Z.of_nat (dim0 capon_bf_abs)))
       else (- (1 # 20), 1 # 20)%Q).
Proof.
  intros E. exists (construct capon_bf_abs caponnorm).
  destruct (construct_parts capon_bf_abs caponnorm)
    as (_ & _ & _ & Hs & Hc & H2 & H3 & H4 & Hh & Hv).
  split; [apply init_returns, E|].
  split; [apply reach_construct, E|].
  split; [exact Hs|]. split; [exact Hc|].
  split; [rewrite Hh, Hv; reflexivity|].
  assert (Hx : forall n : nat,
             nonsingular 0 (Z.of_nat n)
             = (if (0 <? n)%nat then (inject_Z 0, inject_Z (Z.of_nat n))
                else (- (1 # 20), 1 # 20)%Q)).
  { intros [|n]; [reflexivity|].
    rewrite nonsingular_distinct by lia. reflexivity. }
  rewrite H2, H3, H4. cbn [xlim set_yticks set_xlim].
  rewrite !Hx. repeat split.
Qed.

Lemma init_returns_explorer_witness :
  shape3 odd_volume = shape3 odd_volume /\
  exists self,
    __init__ odd_volume odd_volume = (construct_effects self, Returned self) /\
    checkbox self = true /\ lines (ax2 self) = [].
Proof.
  split; [reflexivity|].
  destruct (@init_returns_explorer Z odd_volume odd_volume eq_refl)
    as (self & Hi & _ & _ & Hc & _ & Hl & _).
  exists self. split; [exact Hi|]. split; [exact Hc | exact Hl].
Defined.

(** X7. An explorer opens on the middle of the volume: when the volumes
    have at least one height layer, the first panel of the explorer that
    [__init__] has built shows the layer [H = shape[2] // 2] of the
    normalised volume, with its colour bar, titled for height 0; with no
    layer at all the panel stays empty. *)
Theorem explorer_opens_on_middle_layer (V : Type)
    (capon_bf_abs caponnorm : ndarray3 V) :
  shape3 caponnorm = shape3 capon_bf_abs ->
  ((0 < dim2 capon_bf_abs)%nat ->
   ax1 (construct capon_bf_abs caponnorm)
   = slice_panel 0
       (layer caponnorm (Z.to_nat (Z.of_nat (dim2 capon_bf_abs) / 2)))
       new_axes) /\
  (dim2 capon_bf_abs = 0%nat ->
   ax1 (construct capon_bf_abs caponnorm) = new_axes).
Proof.
  intros E.
  assert (Hd : dim2 caponnorm = dim2 capon_bf_abs)
    by (unfold dim2; rewrite E; reflexivity).
  rewrite construct_slice_panel, Z.sub_0_r.
  split; intros Hn.
  - rewrite getitem_k_front; [reflexivity|].
    rewrite Hd. split; [apply Z.div_pos; lia|].
    apply Z.div_lt_upper_bound; lia.
  - rewrite getitem_k_beyond; [reflexivity|].
    rewrite Hd, Hn. cbn. lia.
Qed.

Lemma explorer_opens_on_middle_layer_witness :
  shape3 odd_volume = shape3 odd_volume /\
  ax1 odd_explorer = slice_panel 0 (layer odd_volume 1) new_axes.
Proof.
  split; [reflexivity|].
  destruct (@explorer_opens_on_middle_layer Z odd_volume odd_volume eq_refl)
    as [H _].
  exact (H ltac:(cbn; lia)).
Defined.

(** X8. In every session the first panel holds at most one image layer
    and every layer on it has its colour bar: images and colour bars do
    not pile up however often the slider moves. *)
Theorem slice_panel_stays_tidy (V : Type) (self : t V) :
  reachable self ->
  (List.length (images (ax1 self)) <= 1)%nat /\
  Forall (fun im => image_colorbar im <> None) (images (ax1 self)).
Proof. intros R. exact (reachable_tidy R). Qed.

Lemma slice_panel_stays_tidy_witness :
  reachable (run [SliderMoved 1; SliderMoved 0; SliderMoved (-1)]
                 odd_explorer) /\
  (List.length
     (images (ax1 (run [SliderMoved 1; SliderMoved 0; SliderMoved (-1)]
                       odd_explorer))) <= 1)%nat.
Proof.
  assert (R : reachable (run [SliderMoved 1; SliderMoved 0; SliderMoved (-1)]
                             odd_explorer))
    by (apply reachable_run, reach_construct; reflexivity).
  split; [exact R|].
  exact (proj1 (@slice_panel_stays_tidy Z _ R)).
Defined.

(** X9. In every session [onslide(h)] does one of two things.  If
    [H - h] is an index numpy accepts on the height axis
    ([-shape[2] <= H - h < shape[2]]) it returns normally and the first
    panel then holds exactly the new slice with its colour bar, the labels
    [range] and [azimuth] and the title for height [h]; otherwise it
    raises [IndexError] and changes nothing.  It never fails on the
    colour bar of the slice it replaces. *)
Theorem onslide_in_session (V : Type) (self : t V) (h : Z) :
  reachable self ->
  onslide h self
  = match getitem_k (caponnorm self) (height self - h) with
    | Returned m => (with_ax1 (slice_panel h m) self, Returned tt)
    | Raised _ => (self, Raised IndexError)
    end /\
  (result (onslide h) self = Returned tt
   <-> - Z.of_nat (dim2 (caponnorm self)) <= height self - h
       < Z.of_nat (dim2 (caponnorm self))).
Proof.
  intros R. pose proof (@onslide_tidy_run V self h (reachable_tidy R)) as E.
  split; [exact E|].
  unfold result. rewrite E.
  rewrite <- (index_completes_iff (dim2 (caponnorm self)) (height self - h)).
  unfold getitem_k.
  destruct (index (dim2 (caponnorm self)) (height self - h)); cbn;
    split; try reflexivity; discriminate.
Qed.

Lemma onslide_in_session_witness :
  reachable odd_explorer /\
  ax1 (exec (onslide 1) odd_explorer)
  = slice_panel 1 (layer odd_volume 0) (ax1 odd_explorer) /\
  onslide (-2) odd_explorer = (odd_explorer, Raised IndexError).
Proof.
  assert (R : reachable odd_explorer)
    by (apply reach_construct; reflexivity).
  split; [exact R|].
  destruct (@onslide_in_session Z odd_explorer 1 R) as [E1 _].
  destruct (@onslide_in_session Z odd_explorer (-2) R) as [E2 _].
  split.
  - unfold exec. rewrite E1. reflexivity.
  - rewrite E2. reflexivity.
Defined.

(** X10. A slider move touches the first panel and the slider's value and
    nothing else: the volumes, the half-height, the checkbox, the profile
    panel, the range and azimuth panels and the cross-hair are as before,
    whether the handler returns or raises, and the slider keeps its
    bounds. *)
Theorem slider_move_is_local (V : Type) (self : t V) (h : Z) :
  beside_slice_panel (step self (SliderMoved h)) = beside_slice_panel self /\
  IntSlider.value (slider (step self (SliderMoved h))) = h /\
  IntSlider.min (slider (step self (SliderMoved h)))
  = IntSlider.min (slider self) /\
  IntSlider.max (slider (step self (SliderMoved h)))
  = IntSlider.max (slider self).
Proof.
  unfold step, handle, exec, bind, modify. cbn -[onslide].
  destruct (onslide_frame h
              (set_slider (IntSlider.set_value h (slider self)) self))
    as (E1 & E2 & E3 & E4 & E5 & E6 & E7 & E8 & E9 & E10).
  unfold exec in *. unfold beside_slice_panel.
  rewrite E1, E2, E3, E4, E5, E6, E7, E8, E9, E10. repeat split.
Qed.

(** X11. Clearing is idempotent and local: pressing the clear button twice
    leaves the explorer exactly as pressing it once, and a press changes
    nothing but the profile panel. *)
Theorem clear_is_idempotent_and_local (V : Type) (self : t V) :
  step (step self ClearClicked) ClearClicked = step self ClearClicked /\
  beside_profile_panel (step self ClearClicked) = beside_profile_panel self.
Proof.
  unfold step, handle, exec. rewrite !init_vertical_plot_run. cbn -[cleared_panel].
  split; [|reflexivity].
  unfold with_ax2. cbn -[cleared_panel]. rewrite cleared_twice. reflexivity.
Qed.

(** X12. In every session the legend of the profile panel lists exactly
    the labels of the lines drawn on it, in order, and there is no legend
    when there is no line. *)
Theorem legend_follows_lines (V : Type) (self : t V) :
  reachable self ->
  legend (ax2 self)
  = match lines (ax2 self) with
    | [] => None
    | _ :: _ => Some (map (@line_label V) (lines (ax2 self)))
    end.
Proof. intros R. exact (reachable_legend R). Qed.

Lemma legend_follows_lines_witness :
  reachable (run (map ButtonPress
                      [click (1 # 5) (3 # 10); click (6 # 5) (3 # 10)])
                 odd_explorer) /\
  legend (ax2 (run (map ButtonPress
                        [click (1 # 5) (3 # 10); click (6 # 5) (3 # 10)])
                   odd_explorer))
  = Some ["rg: 000; az: 000"; "rg: 001; az: 000"]%string.
Proof.
  assert (R : reachable (run (map ButtonPress
                                  [click (1 # 5) (3 # 10);
                                   click (6 # 5) (3 # 10)])
                             odd_explorer))
    by (apply reachable_run, reach_construct; reflexivity).
  split; [exact R|].
  rewrite (@legend_follows_lines Z _ R). reflexivity.
Defined.

(** X13. The cross-hair follows the clicks and nothing else: after any
    run of events it stands at the truncated position of the last click
    that fell in the horizontal-slice panel, whether or not that click's
    handler went on to fail, and where it stood before if there was no
    such click. *)
Theorem crosshair_follows_clicks (V : Type) (self : t V)
    (evs : list ui_event) :
  (lhor (run evs self), lver (run evs self))
  = track_crosshair (lhor self, lver self) evs.
Proof. apply run_crosshair. Qed.

(** X14. A click whose handler raises draws no slice: the range and
    azimuth panels are left exactly as they were, and so are the image,
    the title and the labels of the horizontal-slice panel.  Of that panel
    only the cross-hair can have changed: it stands at the truncated
    position of the click when the click fell in the panel with a
    position, and where it stood otherwise. *)
Theorem failed_click_spares_panels (V : Type) (self : t V)
    (event : MouseEvent) :
  result (onclick event) self <> Returned tt ->
  ax1 (exec (onclick event) self) = ax1 self /\
  ax3 (exec (onclick event) self) = ax3 self /\
  ax4 (exec (onclick event) self) = ax4 self /\
  (lhor (exec (onclick event) self), lver (exec (onclick event) self))
  = track_crosshair (lhor self, lver self) [ButtonPress event].
Proof.
  intros N. destruct (@onclick_failed V event self N) as (E1 & E3 & E4).
  split; [exact E1|]. split; [exact E3|]. split; [exact E4|].
  exact (step_crosshair self (ButtonPress event)).
Qed.

Lemma failed_click_spares_panels_witness :
  result (onclick (click (11 # 2) (1 # 2))) odd_explorer <> Returned tt /\
  ax3 (exec (onclick (click (11 # 2) (1 # 2))) odd_explorer)
  = ax3 odd_explorer /\
  (lhor (exec (onclick (click (11 # 2) (1 # 2))) odd_explorer),
   lver (exec (onclick (click (11 # 2) (1 # 2))) odd_explorer))
  = (0, 5).
Proof.
  assert (N : result (onclick (click (11 # 2) (1 # 2))) odd_explorer
              <> Returned tt) by (vm_compute; discriminate).
  split; [exact N|].
  destruct (@failed_click_spares_panels Z odd_explorer
              (click (11 # 2) (1 # 2)) N) as (_ & E & _ & C).
  split; [exact E | exact C].
Defined.

(** X15. In a session over volumes with an odd number of layers, a click
    on a pixel, read by numpy as row [i] and column [j], adds one image to
    the range panel and one to the azimuth panel and titles them with the
    clicked azimuth and range line.  The range image has [shape[2]] rows
    and [shape[1]] columns and its pixel [(u, v)] is
    [caponnorm[i, v, shape[2] - 1 - u]]; the azimuth image has [shape[2]]
    rows and [shape[0]] columns and its pixel [(u, v)] is
    [caponnorm[v, j, shape[2] - 1 - u]]. *)
Theorem click_draws_slices (V : Type) (self : t V) (event : MouseEvent) :
  reachable self -> odd_height self = true -> on_pixel self event = true ->
  exists rg az i j (r3 r4 : ndarray2 V),
    pixel event = Some (rg, az) /\
    index (dim0 (caponnorm self)) az = Returned i /\
    index (dim1 (caponnorm self)) rg = Returned j /\
    images (ax3 (exec (onclick event) self))
    = (images (ax3 self) ++ [side_image (row_slice (caponnorm self) i)])%list /\
    images (ax4 (exec (onclick event) self))
    = (images (ax4 self) ++ [side_image (column_slice (caponnorm self) j)])%list /\
    title (ax3 (exec (onclick event) self))
    = ("range slice at azimuth line " ++ str az)%string /\
    title (ax4 (exec (onclick event) self))
    = ("azimuth slice at range line " ++ str rg)%string /\
    shown (ax3 (exec (onclick event) self)) = Some (Raw r3) /\
    shown (ax4 (exec (onclick event) self)) = Some (Raw r4) /\
    shape2 r3 = (dim2 (caponnorm self), dim1 (caponnorm self)) /\
    shape2 r4 = (dim2 (caponnorm self), dim0 (caponnorm self)) /\
    (forall u v,
       at2 r3 u v = at3 (caponnorm self) i v (dim2 (caponnorm self) - 1 - u)) /\
    (forall u v,
       at2 r4 u v = at3 (caponnorm self) v j (dim2 (caponnorm self) - 1 - u)).
Proof.
  intros R Hodd Hon. pose proof (reachable_well_formed R) as W.
  destruct (@onclick_success V event self W Hodd Hon)
    as (x & y & i & j & Hx & Hy & Ei & Ej & Hrun).
  destruct W as (Hs & _).
  exists (int_of_float x), (int_of_float y), i, j,
    (rot90 (row_slice (caponnorm self) i)),
    (rot90 (column_slice (caponnorm self) j)).
  split; [unfold pixel; rewrite Hx, Hy; reflexivity|].
  split; [unfold dim0; rewrite Hs; exact Ei|].
  split; [unfold dim1; rewrite Hs; exact Ej|].
  unfold exec. rewrite Hrun.
  unfold shown, range_panel, azimuth_panel, imshow. cbn.
  rewrite !rev_snoc. repeat split.
Qed.

Lemma click_draws_slices_witness :
  reachable odd_explorer /\
  on_pixel odd_explorer (click (6 # 5) (3 # 10)) = true /\
  title (ax3 (exec (onclick (click (6 # 5) (3 # 10))) odd_explorer))
  = "range slice at azimuth line 0"%string /\
  title (ax4 (exec (onclick (click (6 # 5) (3 # 10))) odd_explorer))
  = "azimuth slice at range line 1"%string.
Proof.
  assert (R : reachable odd_explorer)
    by (apply reach_construct; reflexivity).
  split; [exact R|]. split; [reflexivity|].
  destruct (@click_draws_slices Z odd_explorer (click (6 # 5) (3 # 10))
              R eq_refl eq_refl)
    as (rg & az & i & j & r3 & r4 & Hp & _ & _ & _ & _ & T3 & T4 & _).
  injection Hp as <- <-.
  split; [exact T3 | exact T4].
Defined.

(** X16. The profile is drawn bottom-up with the same height mapping as
    the slider: in a session over volumes with an odd number of layers,
    the newest line after a click on a pixel (row [i], column [j]) has,
    for every height [y] in [[-H, H]], the point with ordinate [y] at
    position [y + H], and its abscissa is the sample
    [capon_bf_abs[i, j, H - y]], i.e. the sample of the layer that
    [onslide(y)] shows. *)
Theorem profile_points_match_layers (V : Type) (self : t V)
    (event : MouseEvent) :
  reachable self -> odd_height self = true -> on_pixel self event = true ->
  exists rg az i j older l,
    pixel event = Some (rg, az) /\
    index (dim0 (capon_bf_abs self)) az = Returned i /\
    index (dim1 (capon_bf_abs self)) rg = Returned j /\
    lines (ax2 (exec (onclick event) self)) = (older ++ [l])%list /\
    line_label l = profile_label rg az /\
    List.length (line_xdata l) = List.length (line_ydata l) /\
    forall y, - height self <= y <= height self ->
      nth_error (line_ydata l) (Z.to_nat (y + height self)) = Some y /\
      nth_error (line_xdata l) (Z.to_nat (y + height self))
      = Some (at3 (capon_bf_abs self) i j (Z.to_nat (slice_index self y))).
Proof.
  intros R Hodd Hon. pose proof (reachable_well_formed R) as W.
  destruct (@onclick_success V event self W Hodd Hon)
    as (x & y0 & i & j & Hx & Hy & Ei & Ej & Hrun).
  pose proof (odd_height_layers W Hodd) as HL.
  eexists (int_of_float x), (int_of_float y0), i, j, _, _.
  split; [unfold pixel; rewrite Hx, Hy; reflexivity|].
  split; [exact Ei|]. split; [exact Ej|].
  split; [unfold exec; rewrite Hrun; cbn -[cleared_panel]; reflexivity|].
  split; [reflexivity|].
  unfold profile_line. cbn [line_xdata line_ydata]. unfold flipud.
  rewrite length_rev, length_map, length_seq, range_length.
  split; [lia|].
  intros y Hyr. unfold range, slice_index. split.
  - rewrite nth_error_map, nth_error_seq.
    destruct (Nat.ltb_spec (Z.to_nat (y + height self))
                (Z.to_nat (height self + 1 - - height self))); [|lia].
    cbn. f_equal. lia.
  - rewrite nth_error_rev, length_map, length_seq.
    destruct (Nat.ltb_spec (Z.to_nat (y + height self))
                (dim2 (capon_bf_abs self))); [|lia].
    rewrite nth_error_map, nth_error_seq.
    destruct (Nat.ltb_spec
                (dim2 (capon_bf_abs self) - S (Z.to_nat (y + height self)))
                (dim2 (capon_bf_abs self))); [|lia].
    cbn. f_equal. f_equal. lia.
Qed.

Lemma profile_points_match_layers_witness :
  reachable odd_explorer /\
  on_pixel odd_explorer (click (6 # 5) (3 # 10)) = true /\
  map (@line_xdata Z)
      (lines (ax2 (exec (onclick (click (6 # 5) (3 # 10))) odd_explorer)))
  = [[12; 11; 10]].
Proof.
  assert (R : reachable odd_explorer)
    by (apply reach_construct; reflexivity).
  split; [exact R|]. split; [reflexivity|].
  destruct (@profile_points_match_layers Z odd_explorer
              (click (6 # 5) (3 # 10)) R eq_refl eq_refl)
    as (rg & az & i & j & older & l & _).
  reflexivity.
Defined.

(** X17. Which clicks in the horizontal-slice panel fail at the
    extraction: in a session, a click at [(x, y)] makes [onclick] raise
    [IndexError] exactly when [int(y)] is outside
    [[-shape[0], shape[0])] or [int(x)] is outside
    [[-shape[1], shape[1])].  A negative coordinate inside these bounds is
    not refused: it is counted from the far edge, so the profile read is
    that of row [shape[0] + az] or column [shape[1] + rg]. *)
Theorem click_domain_and_wrap (V : Type) (self : t V)
    (event : MouseEvent) (x y : Q) :
  reachable self ->
  inaxes event = Some Ax1 -> xdata event = Some x -> ydata event = Some y ->
  (result (onclick event) self = Raised IndexError
   <-> ~ (- Z.of_nat (dim0 (capon_bf_abs self)) <= int_of_float y
            < Z.of_nat (dim0 (capon_bf_abs self)) /\
          - Z.of_nat (dim1 (capon_bf_abs self)) <= int_of_float x
            < Z.of_nat (dim1 (capon_bf_abs self)))) /\
  (- Z.of_nat (dim0 (capon_bf_abs self)) <= int_of_float y
     < Z.of_nat (dim0 (capon_bf_abs self)) ->
   - Z.of_nat (dim1 (capon_bf_abs self)) <= int_of_float x
     < Z.of_nat (dim1 (capon_bf_abs self)) ->
   getitem_ij (capon_bf_abs self) (int_of_float y) (int_of_float x)
   = Returned
       (map (at3 (capon_bf_abs self)
               (Z.to_nat (if int_of_float y <? 0
                          then Z.of_nat (dim0 (capon_bf_abs self))
                               + int_of_float y
                          else int_of_float y))
               (Z.to_nat (if int_of_float x <? 0
                          then Z.of_nat (dim1 (capon_bf_abs self))
                               + int_of_float x
                          else int_of_float x)))
            (seq 0 (dim2 (capon_bf_abs self))))).
Proof.
  intros R Hax Hx Hy. pose proof (reachable_well_formed R) as W.
  assert (Hin : in_ax1 event = true) by (unfold in_ax1; rewrite Hax; reflexivity).
  assert (Hon : on_pixel self event
                = completes (index (dim0 (capon_bf_abs self)) (int_of_float y))
                  && completes (index (dim1 (capon_bf_abs self)) (int_of_float x))).
  { unfold on_pixel, pixel. rewrite Hin, Hx, Hy. reflexivity. }
  assert (Hb : on_pixel self event = true
               <-> - Z.of_nat (dim0 (capon_bf_abs self)) <= int_of_float y
                     < Z.of_nat (dim0 (capon_bf_abs self)) /\
                   - Z.of_nat (dim1 (capon_bf_abs self)) <= int_of_float x
                     < Z.of_nat (dim1 (capon_bf_abs self))).
  { rewrite Hon, andb_true_iff, !index_completes_iff. reflexivity. }
  split.
  - rewrite <- Hb. destruct (on_pixel self event) eqn:Hp.
    + destruct (@onclick_on_pixel V event self W Hp)
        as (rg & az & p & _ & _ & Hres).
      destruct (odd_height self); destruct Hres as [-> _];
        split; try discriminate; intros N; contradiction N; reflexivity.
    + destruct (@onclick_off_pixel V event self x y Hin Hx Hy Hp) as [_ E].
      unfold result. rewrite E. cbn. split; [discriminate | reflexivity].
  - intros By Bx.
    assert (Hp : on_pixel self event = true) by (apply Hb; split; assumption).
    rewrite Hon in Hp. apply andb_prop in Hp as [Hi Hj]. unfold getitem_ij.
    destruct (index (dim0 (capon_bf_abs self)) (int_of_float y)) as [i|] eqn:Ei;
      [|discriminate].
    destruct (index (dim1 (capon_bf_abs self)) (int_of_float x)) as [j|] eqn:Ej;
      [|discriminate].
    destruct (index_value _ _ Ei) as [-> _].
    destruct (index_value _ _ Ej) as [-> _]. reflexivity.
Qed.

Lemma click_domain_and_wrap_witness :
  reachable odd_explorer /\
  inaxes (click (-3 # 2) (1 # 2)) = Some Ax1 /\
  int_of_float (-3 # 2) = -1 /\
  getitem_ij (capon_bf_abs odd_explorer) 0 (-1) = Returned [10; 11; 12].
Proof.
  assert (R : reachable odd_explorer)
    by (apply reach_construct; reflexivity).
  split; [exact R|]. split; [reflexivity|]. split; [reflexivity|].
  destruct (@click_domain_and_wrap Z odd_explorer (click (-3 # 2) (1 # 2))
              (-3 # 2) (1 # 2) R eq_refl eq_refl eq_refl) as [_ H].
  apply H; cbn; lia.
Defined.

(** X18. The cursor read-out of the horizontal-slice panel names the
    pixel a click at the same position selects: for a click at [(x, y)]
    in that panel the read-out is [range=rg, azimuth=az, reflectivity=]
    with [(rg, az)] the position the cross-hair is moved to. *)
Theorem cursor_readout_names_clicked_pixel (V : Type) (self : t V)
    (event : MouseEvent) (x y : Q) :
  inaxes event = Some Ax1 -> xdata event = Some x -> ydata event = Some y ->
  ax1_format_coord x y
  = ("range=" ++ str (lver (exec (onclick event) self))
     ++ ", azimuth=" ++ str (lhor (exec (onclick event) self))
     ++ ", reflectivity=")%string.
Proof.
  intros Hax Hx Hy.
  assert (Hin : in_ax1 event = true) by (unfold in_ax1; rewrite Hax; reflexivity).
  destruct (@onclick_crosshair V event self x y Hin Hx Hy) as [-> ->].
  reflexivity.
Qed.

Lemma cursor_readout_names_clicked_pixel_witness :
  inaxes (click (6 # 5) (3 # 10)) = Some Ax1 /\
  ("range=" ++ str (lver (exec (onclick (click (6 # 5) (3 # 10))) odd_explorer))
   ++ ", azimuth="
   ++ str (lhor (exec (onclick (click (6 # 5) (3 # 10))) odd_explorer))
   ++ ", reflectivity=")%string
  = "range=1, azimuth=0, reflectivity="%string.
Proof.
  split; [reflexivity|].
  rewrite <- (@cursor_readout_names_clicked_pixel Z odd_explorer
                (click (6 # 5) (3 # 10)) (6 # 5) (3 # 10)
                eq_refl eq_refl eq_refl).
  reflexivity.
Defined.

(** X19. Unlike the first panel, the range and azimuth panels keep every
    image: in a session over volumes with an odd number of layers, [N]
    clicks that each land on a pixel leave [N] image layers more on each
    of the two panels. *)
Theorem side_panels_accumulate (V : Type) (self : t V)
    (events : list MouseEvent) :
  reachable self -> odd_height self = true ->
  Forall (fun e => on_pixel self e = true) events ->
  List.length (images (ax3 (run (map ButtonPress events) self)))
  = (List.length (images (ax3 self)) + List.length events)%nat /\
  List.length (images (ax4 (run (map ButtonPress events) self)))
  = (List.length (images (ax4 self)) + List.length events)%nat.
Proof.
  intros R Hodd Hall.
  exact (run_clicks_side_panels (reachable_well_formed R) Hodd Hall).
Qed.

Lemma side_panels_accumulate_witness :
  reachable odd_explorer /\
  Forall (fun e => on_pixel odd_explorer e = true)
         [click (1 # 5) (3 # 10); click (1 # 5) (3 # 10)] /\
  List.length
    (images (ax3 (run (map ButtonPress
                           [click (1 # 5) (3 # 10); click (1 # 5) (3 # 10)])
                      odd_explorer)))
  = 2%nat.
Proof.
  assert (R : reachable odd_explorer)
    by (apply reach_construct; reflexivity).
  assert (A : Forall (fun e => on_pixel odd_explorer e = true)
                [click (1 # 5) (3 # 10); click (1 # 5) (3 # 10)])
    by (repeat constructor).
  split; [exact R|]. split; [exact A|].
  exact (proj1 (@side_panels_accumulate Z odd_explorer _ R eq_refl A)).
Defined.

(** X20. Over volumes with an even number of height layers the explorer
    never draws a profile or a slice: in every session the profile panel
    has no line and no legend and the range and azimuth panels have no
    image, whatever is clicked. *)
Theorem even_volume_never_draws (V : Type) (self : t V) :
  reachable self -> odd_height self = false ->
  lines (ax2 self) = [] /\ legend (ax2 self) = None /\
  images (ax3 self) = [] /\ images (ax4 self) = [].
Proof.
  intros R Hev.
  assert (H : lines (ax2 self) = [] /\
              images (ax3 self) = [] /\ images (ax4 self) = []).
  { induction R as [a b E | self ev R IH].
    - destruct (construct_parts a b)
        as (_ & _ & _ & _ & _ & H2 & H3 & H4 & _).
      rewrite H2, H3, H4. repeat split.
    - pose proof (step_fixed self ev) as F.
      rewrite (fixed_odd_height F) in Hev.
      destruct (IH Hev) as (L & I3 & I4).
      pose proof (reachable_well_formed R) as W.
      destruct ev as [h|b| |event]; unfold step, handle.
      + unfold exec, bind, modify. cbn -[onslide].
        destruct (onslide_frame h
                    (set_slider (IntSlider.set_value h (slider self)) self))
          as (_ & _ & _ & _ & _ & E2 & E3 & E4 & _).
        unfold exec in *. rewrite E2, E3, E4. repeat split; assumption.
      + repeat split; assumption.
      + unfold exec. rewrite init_vertical_plot_run. cbn -[cleared_panel].
        split; [apply cleared_panel_lines|]. split; assumption.
      + destruct (@onclick_even V event self W Hev) as (E3 & E4 & HL).
        rewrite E3, E4. split; [apply HL, L|]. split; assumption. }
  destruct H as (L & I3 & I4).
  split; [exact L|]. split; [|split; assumption].
  pose proof (reachable_legend R) as M. unfold legend_matches in M.
  rewrite L in M. exact M.
Qed.

Lemma even_volume_never_draws_witness :
  reachable (run (map ButtonPress [click (1 # 2) (1 # 2); click (6 # 5) (1 # 5)])
                 even_explorer) /\
  lines (ax2 (run (map ButtonPress
                       [click (1 # 2) (1 # 2); click (6 # 5) (1 # 5)])
                  even_explorer)) = [].
Proof.
  assert (R : reachable (run (map ButtonPress
                                  [click (1 # 2) (1 # 2); click (6 # 5) (1 # 5)])
                             even_explorer))
    by (apply reachable_run, reach_construct; reflexivity).
  split; [exact R|].
  exact (proj1 (@even_volume_never_draws Z _ R eq_refl)).
Defined.

End ExplorerProperties.
